(** * WeatherWise backend: the agent's state and tool layer

    A shallow embedding of [backend/main.py] (classes [WeatherState] and
    [WeatherAgent]) and the properties its specification states about it.

    Python values are an inductive type, dictionaries are insertion-ordered
    association lists (the order is observable through [keys()]), exceptions
    are an explicit outcome, and the outbound HTTP traffic is a scripted
    world: the n-th call of [requests.get] is answered by the n-th response of
    the script and every call is recorded.  Every call is answered: a
    network failure inside [requests.get] is outside the model.  Strings
    are sequences of characters, one [ascii] each. *)

From Stdlib Require Import List String Ascii ZArith Lia Bool DecimalString.
Import ListNotations.
Open Scope string_scope.
Open Scope Z_scope.
Set Warnings "-register-all".

(* ------------------------------------------------------------------ *)
(** ** Strings as Python uses them here *)

(** [sub in s] for strings: [sub] occurs in [s] as a contiguous run. *)
Fixpoint str_in (sub s : string) : bool :=
  if String.prefix sub s then true
  else match s with
       | EmptyString => false
       | String _ r => str_in sub r
       end.

(** [s.split(sep)] for a separator of one character. *)
Fixpoint split_on (c : ascii) (s : string) : list string :=
  match s with
  | EmptyString => [EmptyString]
  | String a r =>
      if Ascii.eqb a c then EmptyString :: split_on c r
      else match split_on c r with
           | h :: t => String a h :: t
           | [] => [String a EmptyString]
           end
  end.

(** The character [c] occurs in [s]. *)
Fixpoint has_char (c : ascii) (s : string) : bool :=
  match s with
  | EmptyString => false
  | String a r => Ascii.eqb a c || has_char c r
  end.

Definition comma : ascii := ","%char.

(** [str(n)] for an integer. *)
Definition str_of_int (n : Z) : string := NilZero.string_of_int (Z.to_int n).

(* ------------------------------------------------------------------ *)
(** ** Exceptions and outcomes *)

Inductive exn : Type :=
| KeyError | IndexError | TypeError | AttributeError | ValueError
| JSONDecodeError.

Inductive outcome (A : Type) : Type :=
| Return (a : A)
| Raise (e : exn).
Arguments Return {A} a.
Arguments Raise {A} e.

Definition obind {A B} (m : outcome A) (k : A -> outcome B) : outcome B :=
  match m with
  | Return a => k a
  | Raise e => Raise e
  end.

(** [try: m  except Exception: h] *)
Definition try_except {A} (m : outcome A) (h : outcome A) : outcome A :=
  match m with
  | Return a => Return a
  | Raise _ => h
  end.

Definition returns {A} (m : outcome A) : Prop := exists a, m = Return a.

(* ------------------------------------------------------------------ *)
(** ** Dictionaries: insertion-ordered association lists *)

Definition dict (V : Type) : Type := list (string * V).

Fixpoint dict_get {V} (k : string) (d : dict V) : option V :=
  match d with
  | [] => None
  | (k', v) :: r => if String.eqb k k' then Some v else dict_get k r
  end.

(** [d[k] = v]: an existing key keeps its place, a new one goes last. *)
Fixpoint dict_set {V} (k : string) (v : V) (d : dict V) : dict V :=
  match d with
  | [] => [(k, v)]
  | (k', v') :: r =>
      if String.eqb k k' then (k, v) :: r else (k', v') :: dict_set k v r
  end.

(** [k in d] *)
Definition dict_in {V} (k : string) (d : dict V) : bool :=
  match dict_get k d with Some _ => true | None => false end.

(** [d.get(k, default)] *)
Definition dict_get_default {V} (k : string) (default : V) (d : dict V) : V :=
  match dict_get k d with Some v => v | None => default end.

(** [d.update(e)]: the entries of [e], in order, written into [d]. *)
Definition dict_update {V} (d e : dict V) : dict V :=
  fold_left (fun acc kv => dict_set (fst kv) (snd kv) acc) e d.

(** [list(d.keys())] *)
Definition dict_keys {V} (d : dict V) : list string := map fst d.

(* ------------------------------------------------------------------ *)
(** ** Slices *)

(** Where Python puts a slice bound [i] in a sequence of length [n]. *)
Definition clamp_bound (i : Z) (n : nat) : nat :=
  if i <? 0 then Z.to_nat (Z.max 0 (Z.of_nat n + i))
  else Nat.min (Z.to_nat i) n.

(** [l[:stop]] *)
Definition slice_to {A} (stop : Z) (l : list A) : list A :=
  firstn (clamp_bound stop (List.length l)) l.

(** [l[start:]] *)
Definition slice_from {A} (start : Z) (l : list A) : list A :=
  skipn (clamp_bound start (List.length l)) l.

Fixpoint string_firstn (n : nat) (s : string) : string :=
  match n, s with
  | S m, String a r => String a (string_firstn m r)
  | _, _ => EmptyString
  end.

(* ------------------------------------------------------------------ *)
(** ** A concrete instance to run the model on

    Signed decimal numerals ([40.7], [-74.0], [12]) are among the strings
    [float] accepts; they are read here as exact decimals.  Times are
    counted in seconds. *)

Definition sample_float (s : string) : option Decimal.decimal :=
  let '(neg, digits) :=
    match s with
    | String "-"%char r => (true, r)
    | _ => (false, s)
    end in
  let signed u := if neg : bool then Decimal.Neg u else Decimal.Pos u in
  match split_on "."%char digits with
  | [i] =>
      match NilZero.uint_of_string i with
      | Some a => Some (Decimal.Decimal (signed a) Decimal.Nil)
      | None => None
      end
  | [i; f] =>
      match NilZero.uint_of_string i, NilZero.uint_of_string f with
      | Some a, Some b => Some (Decimal.Decimal (signed a) b)
      | _, _ => None
      end
  | _ => None
  end.

Definition sample_is_zero (d : Decimal.decimal) : bool :=
  match d with
  | Decimal.Decimal i f =>
      match Decimal.nzhead (Decimal.app (Decimal.abs i) f) with
      | Decimal.Nil => true
      | _ => false
      end
  | Decimal.DecimalExp i f _ =>
      match Decimal.nzhead (Decimal.app (Decimal.abs i) f) with
      | Decimal.Nil => true
      | _ => false
      end
  end.

Definition sample_isoformat (t : Z) : string := str_of_int t.

Definition sample_key : string := "test-key".

Section Agent.

(** Python's [float] type and the builtin [float(s)] on a string, [None]
    where it raises [ValueError]; the zero test is what truthiness of a
    float needs. *)
Variable F : Type.
Variable float : string -> option F.
Variable float_is_zero : F -> bool.

(** [datetime] objects and [datetime.isoformat]. *)
Variable datetime : Type.
Variable isoformat : datetime -> string.

(** The module-level constant read from the environment at import. *)
Variable OPENWEATHER_API_KEY : string.

(** ** Python values: what JSON decodes to, plus floats parsed locally *)

Inductive pyval : Type :=
| PNone
| PBool (b : bool)
| PInt (z : Z)
| PFloat (f : F)
| PStr (s : string)
| PList (l : list pyval)
| PDict (d : list (string * pyval)).

(** Truth value of an object, as [and] / [if] test it. *)
Definition truthy (v : pyval) : bool :=
  match v with
  | PNone => false
  | PBool b => b
  | PInt z => negb (z =? 0)
  | PFloat f => negb (float_is_zero f)
  | PStr s => negb (String.eqb s "")
  | PList l => match l with [] => false | _ => true end
  | PDict d => match d with [] => false | _ => true end
  end.

(** [v[k]] for a string key [k]. *)
Definition getitem_key (v : pyval) (k : string) : outcome pyval :=
  match v with
  | PDict d => match dict_get k d with
               | Some x => Return x
               | None => Raise KeyError
               end
  | _ => Raise TypeError
  end.

(** Position of index [i] in a sequence of length [n], if in range. *)
Definition index_pos (i : Z) (n : nat) : option nat :=
  if i <? 0 then
    if Z.of_nat n + i <? 0 then None else Some (Z.to_nat (Z.of_nat n + i))
  else if i <? Z.of_nat n then Some (Z.to_nat i) else None.

(** [v[i]] for an integer [i]; a dictionary decoded from JSON has only
    string keys, so an integer key is never found. *)
Definition getitem_index (v : pyval) (i : Z) : outcome pyval :=
  match v with
  | PList l => match index_pos i (List.length l) with
               | Some n => match nth_error l n with
                           | Some x => Return x
                           | None => Raise IndexError
                           end
               | None => Raise IndexError
               end
  | PStr s => match index_pos i (String.length s) with
              | Some n => match String.get n s with
                          | Some a => Return (PStr (String a EmptyString))
                          | None => Raise IndexError
                          end
              | None => Raise IndexError
              end
  | PDict _ => Raise KeyError
  | _ => Raise TypeError
  end.

(** [v[:stop]]; lists and strings can be sliced, a dictionary rejects the
    slice as a key and the other values have no subscript at all. *)
Definition getslice_to (v : pyval) (stop : Z) : outcome pyval :=
  match v with
  | PList l => Return (PList (slice_to stop l))
  | PStr s => Return (PStr (string_firstn (clamp_bound stop (String.length s)) s))
  | _ => Raise TypeError
  end.

(** [v.get(k, default)]: only dictionaries have the method. *)
Definition method_get (v : pyval) (k : string) (default : pyval) : outcome pyval :=
  match v with
  | PDict d => Return (dict_get_default k default d)
  | _ => Raise AttributeError
  end.

(** ** [WeatherAgent._parse_location] *)

(** [a, b = map(float, parts)]: the iterator is consumed lazily, so the
    third element, when there is one, is converted before the unpacking
    fails. *)
Definition float_or_raise (s : string) : outcome F :=
  match float s with
  | Some x => Return x
  | None => Raise ValueError
  end.

Definition unpack2_floats (parts : list string) : outcome (F * F) :=
  match parts with
  | a :: rest =>
      obind (float_or_raise a) (fun x =>
      match rest with
      | b :: rest' =>
          obind (float_or_raise b) (fun y =>
          match rest' with
          | [] => Return (x, y)
          | c :: _ => obind (float_or_raise c) (fun _ => Raise ValueError)
          end)
      | [] => Raise ValueError
      end)
  | [] => Raise ValueError
  end.

Definition _parse_location (location : string) : outcome (dict pyval) :=
  try_except
    (if str_in "," location then
       obind (unpack2_floats (split_on comma location)) (fun '(lat, lon) =>
       Return [("lat", PFloat lat); ("lon", PFloat lon)])
     else Return [("q", PStr location)])
    (Return [("q", PStr location)]).

(* ------------------------------------------------------------------ *)
(** ** The outside world: scripted HTTP responses, recorded requests *)

(** What the code reads of a [requests.Response]: the status code and the
    decoded body, [None] where [response.json()] raises. *)
Record response : Type := mkResponse {
  status_code : Z;
  body : option pyval
}.

Record request : Type := mkRequest {
  url : string;
  params : dict pyval
}.

Record world : Type := mkWorld {
  script : nat -> response;
  calls : list request
}.

(** Computations that talk to the world and may raise. *)
Definition M (A : Type) : Type := world -> outcome A * world.

Definition ret {A} (a : A) : M A := fun w => (Return a, w).

Definition raise {A} (e : exn) : M A := fun w => (Raise e, w).

Definition bind {A B} (m : M A) (k : A -> M B) : M B :=
  fun w => match m w with
           | (Return a, w') => k a w'
           | (Raise e, w') => (Raise e, w')
           end.

Definition lift {A} (o : outcome A) : M A := fun w => (o, w).

Notation "x <- m ;; k" := (bind m (fun x => k))
  (at level 61, m at next level, right associativity).

(** [requests.get(url, params=params)] *)
Definition requests_get (u : string) (p : dict pyval) : M response :=
  fun w => (Return (script w (List.length (calls w))),
            mkWorld (script w) (calls w ++ [mkRequest u p])).

(** [response.json()] *)
Definition response_json (r : response) : M pyval :=
  match body r with
  | Some v => ret v
  | None => raise JSONDecodeError
  end.

(* ------------------------------------------------------------------ *)
(** ** [WeatherState] *)

Record WeatherState : Type := mkState {
  conversation_history : list (dict pyval);
  last_interaction : option datetime;
  saved_locations : dict (dict pyval);
  user_preferences : dict pyval
}.

(** [WeatherState()]: every field at its default. *)
Definition fresh_state : WeatherState := mkState [] None [] [].

(** [add_to_history]; [t_stamp] and [t_last] are the two readings of
    [datetime.now()], in the order the method takes them. *)
Definition add_to_history (st : WeatherState) (role content : string)
    (t_stamp t_last : datetime) : WeatherState :=
  mkState
    (conversation_history st ++
       [[("role", PStr role); ("content", PStr content);
         ("timestamp", PStr (isoformat t_stamp))]])
    (Some t_last)
    (saved_locations st)
    (user_preferences st).

(** [conversation_history[-limit:]] *)
Definition get_recent_history (st : WeatherState) (limit : Z) : list (dict pyval) :=
  slice_from (- limit) (conversation_history st).

(** [WeatherState.save_location], which [WeatherAgent.save_location]
    forwards to. *)
Definition save_location (st : WeatherState) (location : string)
    (data : dict pyval) : WeatherState :=
  mkState (conversation_history st) (last_interaction st)
          (dict_set location data (saved_locations st))
          (user_preferences st).

Definition update_preferences (st : WeatherState) (preferences : dict pyval)
    : WeatherState :=
  mkState (conversation_history st) (last_interaction st)
          (saved_locations st)
          (dict_update (user_preferences st) preferences).

(** The dictionary [get_state_summary] builds, field by field. *)
Record summary : Type := mkSummary {
  conversation_count : nat;
  summary_last_interaction : option string;
  summary_saved_locations : list string;
  preferences : dict pyval
}.

Definition get_state_summary (st : WeatherState) : summary :=
  mkSummary
    (List.length (conversation_history st))
    (match last_interaction st with
     | Some t => Some (isoformat t)
     | None => None
     end)
    (dict_keys (saved_locations st))
    (user_preferences st).

(* ------------------------------------------------------------------ *)
(** ** The three weather operations of [WeatherAgent] *)

(** The first two lines after [_parse_location] in [get_current_weather]
    and [get_weather_forecast]. *)
Definition with_key_and_units (st : WeatherState) (p : dict pyval) : dict pyval :=
  dict_set "units"
    (dict_get_default "units" (PStr "metric") (user_preferences st))
    (dict_set "appid" (PStr OPENWEATHER_API_KEY) p).

Definition weather_url : string := "http://api.openweathermap.org/data/2.5/weather".
Definition forecast_url : string := "http://api.openweathermap.org/data/2.5/forecast".
Definition geo_url : string := "http://api.openweathermap.org/geo/1.0/direct".
Definition aq_url : string := "http://api.openweathermap.org/data/2.5/air_pollution".

(** [v[k1][k2]] *)
Definition getitem2 (v : pyval) (k1 k2 : string) : outcome pyval :=
  obind (getitem_key v k1) (fun x => getitem_key x k2).

Definition get_current_weather (st : WeatherState) (location : string)
    : M (dict pyval) :=
  p <- lift (_parse_location location) ;;
  response <- requests_get weather_url (with_key_and_units st p) ;;
  if status_code response =? 200 then
    data <- response_json response ;;
    temp <- lift (getitem2 data "main" "temp") ;;
    feels <- lift (getitem2 data "main" "feels_like") ;;
    humidity <- lift (getitem2 data "main" "humidity") ;;
    description <- lift (obind (getitem_key data "weather") (fun ws =>
                         obind (getitem_index ws 0) (fun w0 =>
                         getitem_key w0 "description"))) ;;
    wind <- lift (getitem2 data "wind" "speed") ;;
    ret [("temperature", temp); ("feels_like", feels);
         ("humidity", humidity); ("description", description);
         ("wind_speed", wind)]
  else
    ret [("error",
          PStr ("Failed to get weather data: " ++ str_of_int (status_code response)))].

(** [days] is the [int] of the signature; no bound is checked on it. *)
Definition get_weather_forecast (st : WeatherState) (location : string)
    (days : Z) : M (dict pyval) :=
  p <- lift (_parse_location location) ;;
  response <- requests_get forecast_url (with_key_and_units st p) ;;
  if status_code response =? 200 then
    data <- response_json response ;;
    forecast <- lift (obind (getitem_key data "list") (fun l =>
                      getslice_to l days)) ;;
    city <- lift (obind (method_get data "city" (PDict [])) (fun c =>
                  method_get c "name" (PStr "Unknown"))) ;;
    ret [("forecast", forecast); ("city", city)]
  else
    ret [("error",
          PStr ("Failed to get forecast data: " ++ str_of_int (status_code response)))].

(** The pollution call and what is made of its answer: the part of
    [get_air_quality] after the coordinates are known. *)
Definition air_pollution (lat lon : pyval) : M (dict pyval) :=
  aq_response <- requests_get aq_url
    [("lat", lat); ("lon", lon); ("appid", PStr OPENWEATHER_API_KEY)] ;;
  if status_code aq_response =? 200 then
    aq_data <- response_json aq_response ;;
    aqi <- lift (obind (getitem_key aq_data "list") (fun l =>
                 obind (getitem_index l 0) (fun e =>
                 getitem2 e "main" "aqi"))) ;;
    components <- lift (obind (getitem_key aq_data "list") (fun l =>
                        obind (getitem_index l 0) (fun e =>
                        getitem_key e "components"))) ;;
    ret [("aqi", aqi); ("components", components)]
  else
    ret [("error", PStr "Failed to get air quality data")].

Definition resolution_failure : dict pyval :=
  [("error", PStr "Unable to resolve location to coordinates")].

Definition get_air_quality (location : string) : M (dict pyval) :=
  coords <- lift (_parse_location location) ;;
  if dict_in "lat" coords && dict_in "lon" coords then
    lat <- lift (getitem_key (PDict coords) "lat") ;;
    lon <- lift (getitem_key (PDict coords) "lon") ;;
    air_pollution lat lon
  else
    response <- requests_get geo_url
      (dict_set "appid" (PStr OPENWEATHER_API_KEY)
         (dict_set "limit" (PInt 1) coords)) ;;
    ok <- (if status_code response =? 200 then
             j <- response_json response ;; ret (truthy j)
           else ret false) ;;
    if ok : bool then
      lat <- (j <- response_json response ;;
              lift (obind (getitem_index j 0) (fun c => getitem_key c "lat"))) ;;
      lon <- (j <- response_json response ;;
              lift (obind (getitem_index j 0) (fun c => getitem_key c "lon"))) ;;
      air_pollution lat lon
    else
      ret resolution_failure.

(* ------------------------------------------------------------------ *)
(** ** Sessions: sequences of operations on one agent *)

Inductive op : Type :=
| OpAddToHistory (role content : string) (t_stamp t_last : datetime)
| OpGetRecentHistory (limit : Z)
| OpSaveLocation (location : string) (data : dict pyval)
| OpUpdatePreferences (preferences : dict pyval)
| OpGetStateSummary
| OpGetCurrentWeather (location : string)
| OpGetWeatherForecast (location : string) (days : Z)
| OpGetAirQuality (location : string).

(** One operation on the agent's state and the world.  The weather
    operations only read the state, whether they return or raise. *)
Definition step (c : WeatherState * world) (o : op) : WeatherState * world :=
  let '(st, w) := c in
  match o with
  | OpAddToHistory role content t_stamp t_last =>
      (add_to_history st role content t_stamp t_last, w)
  | OpGetRecentHistory _ => (st, w)
  | OpSaveLocation location data => (save_location st location data, w)
  | OpUpdatePreferences preferences => (update_preferences st preferences, w)
  | OpGetStateSummary => (st, w)
  | OpGetCurrentWeather location => (st, snd (get_current_weather st location w))
  | OpGetWeatherForecast location days =>
      (st, snd (get_weather_forecast st location days w))
  | OpGetAirQuality location => (st, snd (get_air_quality location w))
  end.

Definition run (ops : list op) (c : WeatherState * world) : WeatherState * world :=
  fold_left step ops c.

(** The operation is a preference update that writes the key [k]. *)
Definition sets_preference (k : string) (o : op) : bool :=
  match o with
  | OpUpdatePreferences preferences => dict_in k preferences
  | _ => false
  end.

(** The last [k] entries of a list. *)
Definition last_entries {A} (k : nat) (l : list A) : list A :=
  skipn (List.length l - k) l.

(** The response the next call of [requests.get] receives. *)
Definition next_response (w : world) : response :=
  script w (List.length (calls w)).

(** A world in which every call is answered by [r]. *)
Definition always (r : response) : world := mkWorld (fun _ => r) [].

(** A world answering with the responses of [rs], in order, and with [r]
    once they are used up. *)
Definition scripted (rs : list response) (r : response) : world :=
  mkWorld (fun n => nth n rs r) [].

(* ------------------------------------------------------------------ *)
(** ** Vocabulary for results and answers *)

(** The outcome is a result whose only field is [error], with a message
    in which [code] occurs. *)
Definition is_error_mentioning (code : string) (o : outcome (dict pyval)) : Prop :=
  exists msg, o = Return [("error", PStr msg)] /\ str_in code msg = true.

(** Every call is answered with the status [code]. *)
Definition all_answered (code : Z) (w : world) : Prop :=
  forall n, status_code (script w n) = code.

(** [v] is a dictionary with the key [k]. *)
Definition has_key (k : string) (v : pyval) : bool :=
  match v with
  | PDict d => dict_in k d
  | _ => false
  end.

(** Bodies from which each operation can take every field it reads. *)
Definition current_shape (j : pyval) : bool :=
  match j with
  | PDict d =>
      match dict_get "main" d, dict_get "weather" d, dict_get "wind" d with
      | Some m, Some (PList (w0 :: _)), Some wi =>
          has_key "temp" m && has_key "feels_like" m && has_key "humidity" m
          && has_key "description" w0 && has_key "speed" wi
      | _, _, _ => false
      end
  | _ => false
  end.




(** The response is a failure status, or a 200 with a body of the shape. *)
Definition answers (shape : pyval -> bool) (r : response) : bool :=
  negb (status_code r =? 200)
  || match body r with Some j => shape j | None => false end.

(** The city the forecast result names for the decoded body [d]. *)
Definition named_city (d : dict pyval) (city : pyval) : Prop :=
  (forall c n, dict_get "city" d = Some (PDict c) -> dict_get "name" c = Some n ->
               city = n) /\
  (dict_get "city" d = None -> city = PStr "Unknown") /\
  (forall c, dict_get "city" d = Some (PDict c) -> dict_get "name" c = None ->
             city = PStr "Unknown").

(** The forecast answer is a 200 whose body [d] carries the list [l] and,
    if it has a [city], an object there. *)
Definition successful_forecast (w : world) (d : dict pyval) (l : list pyval) : Prop :=
  status_code (next_response w) = 200 /\
  body (next_response w) = Some (PDict d) /\
  dict_get "list" d = Some (PList l) /\
  (dict_get "city" d = None \/ exists c, dict_get "city" d = Some (PDict c)).

(** *** The statements of the specification that the code does not meet,
    as the specification words them *)


(** "For every weather operation, a call answered with 404 gives a result
    whose error field contains 404." *)
Definition not_found_claim : Prop :=
  forall st loc days w,
    all_answered 404 w ->
    is_error_mentioning "404" (fst (get_current_weather st loc w)) /\
    is_error_mentioning "404" (fst (get_weather_forecast st loc days w)) /\
    is_error_mentioning "404" (fst (get_air_quality loc w)).

(** "For every successful forecast response the forecast field is the
    first [days] entries of the list", for every integer [days]. *)
Definition first_days_claim : Prop :=
  forall st loc days w d l,
    successful_forecast w d l ->
    exists city,
      fst (get_weather_forecast st loc days w) =
        Return [("forecast", PList (firstn (Z.to_nat days) l)); ("city", city)] /\
      named_city d city.

(* ------------------------------------------------------------------ *)
(** ** Start-up and bookkeeping *)



(** How many of the operations are calls of [add_to_history]. *)
Definition count_adds (ops : list op) : nat :=
  List.length (filter (fun o => match o with
                                | OpAddToHistory _ _ _ _ => true
                                | _ => false
                                end) ops).

Definition is_dict (v : pyval) : bool :=
  match v with
  | PDict _ => true
  | _ => false
  end.

(** The request carries the configured key as [appid]. *)
Definition carries_key (r : request) : Prop :=
  dict_get "appid" (params r) = Some (PStr OPENWEATHER_API_KEY).

(* ------------------------------------------------------------------ *)
(** ** Properties of [_parse_location] *)

(** [s] is two valid floating-point numerals separated by one comma, and
    [x], [y] are what [float] makes of them. *)
Definition two_floats (s : string) (x y : F) : Prop :=
  exists a b,
    s = a ++ String comma b /\
    has_char comma a = false /\ has_char comma b = false /\
    float a = Some x /\ float b = Some y.

Lemma str_in_comma (s : string) : str_in "," s = has_char comma s.
Proof.
  induction s as [|a r IH]; [reflexivity|].
  cbn [str_in has_char String.prefix].
  destruct (ascii_dec "," a) as [<-|Hne].
  - destruct r; reflexivity.
  - rewrite IH.
    destruct (Ascii.eqb_spec a comma) as [->|_]; [now elim Hne | reflexivity].
Qed.

Lemma split_on_not_nil (c : ascii) (s : string) : split_on c s <> [].
Proof.
  destruct s as [|a r]; cbn; [discriminate|].
  destruct (Ascii.eqb a c); [discriminate|].
  destruct (split_on c r); discriminate.
Qed.

Lemma split_on_free (c : ascii) (s : string) :
  has_char c s = false -> split_on c s = [s].
Proof.
  induction s as [|a r IH]; cbn; [reflexivity|].
  destruct (Ascii.eqb a c); cbn; [discriminate|].
  intros H. now rewrite (IH H).
Qed.

Lemma split_on_app (c : ascii) (a b : string) :
  has_char c a = false ->
  split_on c (a ++ String c b) = a :: split_on c b.
Proof.
  induction a as [|x a IH]; cbn.
  - now rewrite Ascii.eqb_refl.
  - destruct (Ascii.eqb x c); cbn; [discriminate|].
    intros H. now rewrite (IH H).
Qed.

Lemma split_on_single (c : ascii) (s p : string) :
  split_on c s = [p] -> p = s /\ has_char c s = false.
Proof.
  revert p. induction s as [|x r IH]; cbn; intros p.
  - now intros [= <-].
  - destruct (Ascii.eqb x c); cbn.
    + intros [= _ H]. now elim (split_on_not_nil c r).
    + destruct (split_on c r) as [|h t] eqn:E; [now elim (split_on_not_nil c r)|].
      intros [= <- ->]. destruct (IH h eq_refl) as [-> ->]. now split.
Qed.

Lemma split_on_two (c : ascii) (s a b : string) :
  split_on c s = [a; b] ->
  s = a ++ String c b /\ has_char c a = false /\ has_char c b = false.
Proof.
  revert a. induction s as [|x r IH]; cbn; intros a.
  - discriminate.
  - destruct (Ascii.eqb_spec x c) as [->|Hne]; cbn.
    + intros [= <- H]. apply split_on_single in H as [-> H].
      now repeat split.
    + destruct (split_on c r) as [|h t] eqn:E; [discriminate|].
      intros [= <- ->]. destruct (IH h eq_refl) as (-> & Ha & Hb).
      repeat split; trivial.
      cbn. rewrite Ha. now destruct (Ascii.eqb_spec x c).
Qed.

(** Being two comma-separated floats is decided by splitting. *)
Lemma two_floats_split (s : string) (x y : F) :
  two_floats s x y <->
  exists a b, split_on comma s = [a; b] /\ float a = Some x /\ float b = Some y.
Proof.
  split.
  - intros (a & b & -> & Ha & Hb & Hx & Hy). exists a, b.
    now rewrite (split_on_app _ _ _ Ha), (split_on_free _ _ Hb).
  - intros (a & b & H & Hx & Hy). apply split_on_two in H as (-> & Ha & Hb).
    now exists a, b.
Qed.

Lemma parse_location_query (s : string) :
  (~ exists x y, two_floats s x y) ->
  _parse_location s = Return [("q", PStr s)].
Proof.
  intros Hno. unfold _parse_location.
  destruct (str_in "," s); [|reflexivity].
  destruct (split_on comma s) as [|a [|b [|c r]]] eqn:E; cbn; trivial.
  - unfold float_or_raise. now destruct (float a).
  - unfold float_or_raise.
    destruct (float a) as [x|] eqn:Ea; cbn; trivial.
    destruct (float b) as [y|] eqn:Eb; cbn; trivial.
    elim Hno. exists x, y. apply two_floats_split. now exists a, b.
  - unfold float_or_raise.
    destruct (float a); cbn; trivial.
    destruct (float b); cbn; trivial.
    now destruct (float c).
Qed.

Lemma parse_location_coords (s : string) (x y : F) :
  two_floats s x y ->
  _parse_location s = Return [("lat", PFloat x); ("lon", PFloat y)].
Proof.
  intros H.
  assert (Hin : has_char comma s = true).
  { destruct H as (a & b & -> & _). clear.
    induction a as [|c a IH]; cbn; [reflexivity|].
    rewrite IH. apply orb_true_r. }
  apply two_floats_split in H as (a & b & E & Ha & Hb).
  unfold _parse_location. rewrite str_in_comma, Hin, E. cbn.
  unfold float_or_raise. now rewrite Ha, Hb.
Qed.

(** The two shapes [_parse_location] can return. *)
Lemma parse_location_cases (s : string) :
  (exists x y, two_floats s x y /\
     _parse_location s = Return [("lat", PFloat x); ("lon", PFloat y)]) \/
  ((~ exists x y, two_floats s x y) /\
     _parse_location s = Return [("q", PStr s)]).
Proof.
  assert (D : (exists x y, two_floats s x y) \/ ~ (exists x y, two_floats s x y)).
  { destruct (split_on comma s) as [|a [|b [|c r]]] eqn:E.
    1,2,4: right; intros (x & y & H);
           apply two_floats_split in H as (a' & b' & E' & _); congruence.
    destruct (float a) as [x|] eqn:Ea, (float b) as [y|] eqn:Eb.
    1: left; exists x, y; apply two_floats_split; now exists a, b.
    all: right; intros (x' & y' & H);
         apply two_floats_split in H as (a' & b' & E' & Ha' & Hb'); congruence. }
  destruct D as [(x & y & H)|H].
  - left. exists x, y. split; [exact H | now apply parse_location_coords].
  - right. split; [exact H | now apply parse_location_query].
Qed.

Lemma parse_location_total (s : string) : returns (_parse_location s).
Proof.
  destruct (parse_location_cases s) as [(x & y & _ & E)|(_ & E)];
    rewrite E; eexists; reflexivity.
Qed.

(** C1: a string made of exactly two valid floating-point numerals
    separated by one comma is parsed to [{lat, lon}] with the two values
    [float] gives; every other string is parsed to [{q: string}] with the
    string unchanged; and [_parse_location] raises on no input. *)
Theorem parse_location_spec (s : string) :
  (forall x y, two_floats s x y ->
     _parse_location s = Return [("lat", PFloat x); ("lon", PFloat y)]) /\
  ((~ exists x y, two_floats s x y) ->
     _parse_location s = Return [("q", PStr s)]) /\
  returns (_parse_location s).
Proof.
  split; [|split].
  - apply parse_location_coords.
  - apply parse_location_query.
  - apply parse_location_total.
Qed.

(* ------------------------------------------------------------------ *)
(** ** Dictionaries *)

Lemma dict_get_set_same {V} (k : string) (v : V) (d : dict V) :
  dict_get k (dict_set k v d) = Some v.
Proof.
  induction d as [|[k' v'] r IH]; cbn.
  - now rewrite String.eqb_refl.
  - destruct (String.eqb k k') eqn:E; cbn; rewrite ?E, ?String.eqb_refl; trivial.
Qed.

Lemma dict_get_set_other {V} (k k' : string) (v : V) (d : dict V) :
  k <> k' -> dict_get k (dict_set k' v d) = dict_get k d.
Proof.
  intros Hne. induction d as [|[k0 v0] r IH]; cbn.
  - now apply String.eqb_neq in Hne as ->.
  - destruct (String.eqb_spec k' k0) as [->|Hk]; cbn.
    + now apply String.eqb_neq in Hne as ->.
    + now rewrite IH.
Qed.

Lemma dict_keys_set {V} (k : string) (v : V) (d : dict V) :
  In k (dict_keys (dict_set k v d)).
Proof.
  induction d as [|[k' v'] r IH]; cbn; [now left|].
  destruct (String.eqb k k'); cbn; [now left | now right].
Qed.

Lemma dict_keys_in {V} (k : string) (d : dict V) :
  In k (dict_keys d) <-> dict_in k d = true.
Proof.
  unfold dict_in. induction d as [|[k' v'] r IH]; cbn.
  - split; [tauto | discriminate].
  - destruct (String.eqb_spec k k') as [->|Hne].
    + split; auto.
    + rewrite <- IH. split; [intros [E|H]; [now elim Hne | exact H] | now right].
Qed.

(** Overwriting a payload leaves the labels as they were. *)
Lemma dict_keys_set_payload {V} (k : string) (v v' : V) (d : dict V) :
  dict_keys (dict_set k v d) = dict_keys (dict_set k v' d).
Proof.
  unfold dict_keys.
  induction d as [|[k' v0] r IH]; cbn; [reflexivity|].
  destruct (String.eqb k k'); cbn; [reflexivity | now rewrite IH].
Qed.

Lemma dict_get_update_absent {V} (k : string) (d e : dict V) :
  dict_in k e = false -> dict_get k (dict_update d e) = dict_get k d.
Proof.
  unfold dict_update, dict_in. revert d.
  induction e as [|[k' v'] r IH]; cbn; intros d; [reflexivity|].
  destruct (String.eqb_spec k k') as [->|Hne]; [discriminate|].
  intros H. rewrite (IH _ H). now apply dict_get_set_other.
Qed.

(* ------------------------------------------------------------------ *)
(** ** Properties of [WeatherState] *)

Lemma clamp_bound_neg (n : Z) (len : nat) :
  1 <= n -> clamp_bound (- n) len = (len - Nat.min (Z.to_nat n) len)%nat.
Proof.
  intros Hn. unfold clamp_bound.
  destruct (Z.ltb_spec (- n) 0); lia.
Qed.

(** C10: for a limit [n >= 1], [get_recent_history] returns the last
    [min(n, len(h))] entries of the history [h], in their order; for
    [n = 0] it returns the whole of [h]. *)
Theorem get_recent_history_spec (st : WeatherState) (n : Z) :
  let h := conversation_history st in
  (1 <= n ->
     get_recent_history st n =
       last_entries (Nat.min (Z.to_nat n) (List.length h)) h /\
     List.length (get_recent_history st n) = Nat.min (Z.to_nat n) (List.length h) /\
     exists older, h = (older ++ get_recent_history st n)%list) /\
  get_recent_history st 0 = h.
Proof.
  cbn zeta. split.
  - intros Hn. unfold get_recent_history, slice_from, last_entries.
    rewrite (clamp_bound_neg _ _ Hn). split; [reflexivity|]. split.
    + rewrite length_skipn. lia.
    + eexists. symmetry. apply firstn_skipn.
  - reflexivity.
Qed.

(** The state invariant: [last_interaction] is set exactly when the
    history has an entry. *)
Definition history_invariant (st : WeatherState) : Prop :=
  last_interaction st <> None <-> conversation_history st <> [].

Lemma step_history_invariant (c : WeatherState * world) (o : op) :
  history_invariant (fst c) -> history_invariant (fst (step c o)).
Proof.
  destruct c as [st w]. unfold history_invariant.
  destruct o; cbn; trivial.
  intros _. split; intros _; [|discriminate].
  intros E. now apply app_eq_nil in E as [_ E].
Qed.

Lemma run_history_invariant (ops : list op) (c : WeatherState * world) :
  history_invariant (fst c) -> history_invariant (fst (run ops c)).
Proof.
  unfold run. revert c.
  induction ops as [|o ops IH]; cbn; intros c H; [exact H|].
  apply IH. now apply step_history_invariant.
Qed.

(** C9: in every state reached from a fresh [WeatherState] by a sequence
    of operations, [last_interaction] is not [None] if and only if
    [conversation_history] is not empty. *)
Theorem last_interaction_iff_history (ops : list op) (w : world) :
  let st := fst (run ops (fresh_state, w)) in
  last_interaction st <> None <-> conversation_history st <> [].
Proof.
  apply (run_history_invariant ops (fresh_state, w)).
  cbn. split; intros H; now elim H.
Qed.

(** C8: after [save_location(label, data)] the summary lists [label]; its
    saved-location entries are exactly the labels in the state; and the
    summary is the same whatever payload was saved under the label. *)
Theorem summary_lists_labels_only (st : WeatherState) (label : string)
    (data : dict pyval) :
  In label (summary_saved_locations (get_state_summary (save_location st label data))) /\
  (forall l st', In l (summary_saved_locations (get_state_summary st')) <->
                 dict_in l (saved_locations st') = true) /\
  (forall data', get_state_summary (save_location st label data) =
                 get_state_summary (save_location st label data')).
Proof.
  split; [|split].
  - cbn. apply dict_keys_set.
  - intros l st'. cbn. apply dict_keys_in.
  - intros data'. unfold get_state_summary, save_location.
    cbn [conversation_history last_interaction saved_locations user_preferences].
    now rewrite (dict_keys_set_payload label data data').
Qed.

(* ------------------------------------------------------------------ *)
(** ** What the operations send *)

(** A computation that issues no request. *)
Definition quiet {A} (m : M A) : Prop := forall w, snd (m w) = w.

Lemma quiet_ret {A} (a : A) : quiet (ret a).
Proof. now intros w. Qed.

Lemma quiet_raise {A} (e : exn) : quiet (@raise A e).
Proof. now intros w. Qed.

Lemma quiet_lift {A} (o : outcome A) : quiet (lift o).
Proof. now intros w. Qed.

Lemma quiet_bind {A B} (m : M A) (k : A -> M B) :
  quiet m -> (forall a, quiet (k a)) -> quiet (bind m k).
Proof.
  intros Hm Hk w. unfold bind. specialize (Hm w).
  destruct (m w) as [[a|e] w']; cbn in *; subst; [apply Hk | reflexivity].
Qed.

Lemma quiet_response_json (r : response) : quiet (response_json r).
Proof.
  unfold response_json. destruct (body r); [apply quiet_ret | apply quiet_raise].
Qed.

Lemma quiet_if {A} (b : bool) (m1 m2 : M A) :
  quiet m1 -> quiet m2 -> quiet (if b then m1 else m2).
Proof. now destruct b. Qed.

Create HintDb quiet.
#[local] Hint Resolve quiet_ret quiet_raise quiet_lift quiet_bind
  quiet_response_json quiet_if : quiet.

(** One call followed by quiet code records exactly that call. *)
Lemma calls_after_get {A} (u : string) (p : dict pyval)
    (k : response -> M A) (w : world) :
  (forall r, quiet (k r)) ->
  snd (bind (requests_get u p) k w) =
    mkWorld (script w) (calls w ++ [mkRequest u p]).
Proof.
  intros Hk. unfold bind, requests_get. apply Hk.
Qed.

Lemma bind_lift_return {A B} (o : outcome A) (a : A) (k : A -> M B) (w : world) :
  o = Return a -> bind (lift o) k w = k a w.
Proof. now intros ->. Qed.

Lemma current_weather_request (st : WeatherState) (loc : string) (w : world) :
  exists p, _parse_location loc = Return p /\
    snd (get_current_weather st loc w) =
      mkWorld (script w) (calls w ++ [mkRequest weather_url (with_key_and_units st p)]).
Proof.
  destruct (parse_location_total loc) as [p E]. exists p. split; [exact E|].
  unfold get_current_weather. rewrite (bind_lift_return _ _ _ _ E).
  apply calls_after_get. intros r. auto 12 with quiet.
Qed.

Lemma forecast_request (st : WeatherState) (loc : string) (days : Z) (w : world) :
  exists p, _parse_location loc = Return p /\
    snd (get_weather_forecast st loc days w) =
      mkWorld (script w) (calls w ++ [mkRequest forecast_url (with_key_and_units st p)]).
Proof.
  destruct (parse_location_total loc) as [p E]. exists p. split; [exact E|].
  unfold get_weather_forecast. rewrite (bind_lift_return _ _ _ _ E).
  apply calls_after_get. intros r. auto 12 with quiet.
Qed.

Lemma air_pollution_request (lat lon : pyval) (w : world) :
  snd (air_pollution lat lon w) =
    mkWorld (script w)
      (calls w ++ [mkRequest aq_url
                     [("lat", lat); ("lon", lon); ("appid", PStr OPENWEATHER_API_KEY)]]).
Proof.
  unfold air_pollution. apply calls_after_get. intros r. auto 12 with quiet.
Qed.

Lemma units_sent (st : WeatherState) (p : dict pyval) :
  dict_get "units" (with_key_and_units st p) =
    Some (dict_get_default "units" (PStr "metric") (user_preferences st)).
Proof. apply dict_get_set_same. Qed.

Lemma step_units_unset (c : WeatherState * world) (o : op) :
  sets_preference "units" o = false ->
  dict_get "units" (user_preferences (fst c)) = None ->
  dict_get "units" (user_preferences (fst (step c o))) = None.
Proof.
  destruct c as [st w]. destruct o; cbn [step fst sets_preference]; trivial.
  intros Hk Hu. cbn [update_preferences user_preferences].
  now rewrite dict_get_update_absent.
Qed.

Lemma run_units_unset (ops : list op) (c : WeatherState * world) :
  forallb (fun o => negb (sets_preference "units" o)) ops = true ->
  dict_get "units" (user_preferences (fst c)) = None ->
  dict_get "units" (user_preferences (fst (run ops c))) = None.
Proof.
  unfold run. revert c.
  induction ops as [|o ops IH]; cbn [fold_left forallb]; intros c H Hu; [exact Hu|].
  apply andb_prop in H as [Ho H]. apply negb_true_iff in Ho.
  apply IH; [exact H | now apply step_units_unset].
Qed.

(** C3: in any state, [update_preferences({"units": "imperial"})] followed
    by [get_current_weather] sends its request with [units=imperial]; in a
    state reached from a fresh one by operations among which no preference
    update wrote ["units"], the request is sent with [units=metric]. *)
Theorem units_preference (st : WeatherState) (ops : list op) (loc : string)
    (w : world) :
  (exists p,
     calls (snd (get_current_weather
                   (update_preferences st [("units", PStr "imperial")]) loc w)) =
       (calls w ++ [mkRequest weather_url p])%list /\
     dict_get "units" p = Some (PStr "imperial")) /\
  (forallb (fun o => negb (sets_preference "units" o)) ops = true ->
   let c := run ops (fresh_state, w) in
   exists p,
     calls (snd (get_current_weather (fst c) loc (snd c))) =
       (calls (snd c) ++ [mkRequest weather_url p])%list /\
     dict_get "units" p = Some (PStr "metric")).
Proof.
  split.
  - destruct (current_weather_request
                (update_preferences st [("units", PStr "imperial")]) loc w)
      as (p & _ & E).
    eexists. rewrite E. split; [reflexivity|].
    rewrite units_sent. cbn [update_preferences user_preferences dict_update fold_left fst snd].
    unfold dict_get_default. now rewrite dict_get_set_same.
  - intros Hops c.
    destruct (current_weather_request (fst c) loc (snd c)) as (p & _ & E).
    eexists. rewrite E. split; [reflexivity|].
    rewrite units_sent. unfold dict_get_default, c.
    now rewrite (run_units_unset ops (fresh_state, w) Hops eq_refl).
Qed.

(** C5: for a location made of two comma-separated floats,
    [get_air_quality] sends exactly one request, to the pollution endpoint,
    with those coordinates; no geocoding request is sent. *)
Theorem air_quality_skips_geocoding (loc : string) (x y : F) (w : world) :
  two_floats loc x y ->
  calls (snd (get_air_quality loc w)) =
    (calls w ++ [mkRequest aq_url
                   [("lat", PFloat x); ("lon", PFloat y);
                    ("appid", PStr OPENWEATHER_API_KEY)]])%list.
Proof.
  intros H. apply parse_location_coords in H.
  unfold get_air_quality. rewrite (bind_lift_return _ _ _ _ H).
  cbn -[air_pollution]. now rewrite air_pollution_request.
Qed.

Lemma air_quality_unresolved (loc : string) (w : world) :
  (~ exists x y, two_floats loc x y) ->
  status_code (next_response w) <> 200 \/
    body (next_response w) = Some (PList []) ->
  get_air_quality loc w =
    (Return resolution_failure,
     mkWorld (script w)
       (calls w ++ [mkRequest geo_url
                      [("q", PStr loc); ("limit", PInt 1);
                       ("appid", PStr OPENWEATHER_API_KEY)]])).
Proof.
  intros H Hr. apply parse_location_query in H.
  unfold get_air_quality. rewrite (bind_lift_return _ _ _ _ H).
  unfold next_response in Hr.
  cbn -[Z.eqb].
  destruct (Z.eqb_spec (status_code (script w (List.length (calls w)))) 200) as [E|Hne].
  - destruct Hr as [Hr|Hr]; [now elim Hr|].
    unfold response_json. rewrite Hr. reflexivity.
  - reflexivity.
Qed.

(** C6: for a place-name location, when the geocoding call is answered
    with a status other than 200 or with an empty candidate list,
    [get_air_quality] returns the resolution-failure result and the only
    request sent is the geocoding one: the pollution endpoint is not
    called. *)
Theorem air_quality_resolution_failure (loc : string) (w : world) :
  (~ exists x y, two_floats loc x y) ->
  status_code (next_response w) <> 200 \/
    body (next_response w) = Some (PList []) ->
  get_air_quality loc w =
    (Return resolution_failure,
     mkWorld (script w)
       (calls w ++ [mkRequest geo_url
                      [("q", PStr loc); ("limit", PInt 1);
                       ("appid", PStr OPENWEATHER_API_KEY)]])) /\
  geo_url <> aq_url.
Proof.
  intros H Hr. split; [now apply air_quality_unresolved | discriminate].
Qed.

(* ------------------------------------------------------------------ *)
(** ** Failure statuses *)

Lemma current_weather_failure (st : WeatherState) (loc : string) (w : world) :
  status_code (next_response w) <> 200 ->
  fst (get_current_weather st loc w) =
    Return [("error", PStr ("Failed to get weather data: "
                            ++ str_of_int (status_code (next_response w))))].
Proof.
  intros Hne. apply Z.eqb_neq in Hne. unfold next_response in *.
  destruct (parse_location_total loc) as [p E].
  unfold get_current_weather. rewrite (bind_lift_return _ _ _ _ E).
  unfold bind at 1. unfold requests_get. now rewrite Hne.
Qed.

Lemma forecast_failure (st : WeatherState) (loc : string) (days : Z) (w : world) :
  status_code (next_response w) <> 200 ->
  fst (get_weather_forecast st loc days w) =
    Return [("error", PStr ("Failed to get forecast data: "
                            ++ str_of_int (status_code (next_response w))))].
Proof.
  intros Hne. apply Z.eqb_neq in Hne. unfold next_response in *.
  destruct (parse_location_total loc) as [p E].
  unfold get_weather_forecast. rewrite (bind_lift_return _ _ _ _ E).
  unfold bind at 1. unfold requests_get. now rewrite Hne.
Qed.

Lemma air_pollution_failure (lat lon : pyval) (w : world) :
  status_code (next_response w) <> 200 ->
  fst (air_pollution lat lon w) =
    Return [("error", PStr "Failed to get air quality data")].
Proof.
  intros Hne. apply Z.eqb_neq in Hne. unfold next_response in *.
  unfold air_pollution. unfold bind at 1. unfold requests_get. now rewrite Hne.
Qed.

Lemma air_quality_coords (loc : string) (x y : F) (w : world) :
  two_floats loc x y ->
  get_air_quality loc w = air_pollution (PFloat x) (PFloat y) w.
Proof.
  intros H. apply parse_location_coords in H.
  unfold get_air_quality. now rewrite (bind_lift_return _ _ _ _ H).
Qed.

(* ------------------------------------------------------------------ *)
(** ** Successful answers *)

Lemma firstn_min_length {A} (n : nat) (l : list A) :
  firstn (Nat.min n (List.length l)) l = firstn n l.
Proof.
  destruct (Nat.le_ge_cases n (List.length l)) as [H|H].
  - now rewrite Nat.min_l.
  - rewrite Nat.min_r by exact H. now rewrite firstn_all, firstn_all2.
Qed.

Lemma slice_to_nonneg {A} (n : Z) (l : list A) :
  0 <= n -> slice_to n l = firstn (Z.to_nat n) l.
Proof.
  intros Hn. unfold slice_to, clamp_bound.
  destruct (Z.ltb_spec n 0); [lia|]. apply firstn_min_length.
Qed.

Lemma forecast_success (st : WeatherState) (loc : string) (days : Z)
    (w : world) (d : dict pyval) (l : list pyval) :
  successful_forecast w d l ->
  exists city,
    fst (get_weather_forecast st loc days w) =
      Return [("forecast", PList (slice_to days l)); ("city", city)] /\
    named_city d city.
Proof.
  intros (Hs & Hb & Hl & Hc). unfold next_response in *.
  destruct (parse_location_total loc) as [p E].
  unfold get_weather_forecast. rewrite (bind_lift_return _ _ _ _ E).
  unfold bind at 1. unfold requests_get. rewrite Hs.
  unfold response_json. rewrite Hb.
  cbn -[slice_to]. rewrite Hl. cbn -[slice_to].
  unfold dict_get_default.
  destruct Hc as [Hc|(c & Hc)]; rewrite Hc; cbn -[slice_to].
  - eexists. split; [reflexivity|]. repeat split; congruence.
  - unfold dict_get_default.
    destruct (dict_get "name" c) as [n|] eqn:En;
      (eexists; split; [reflexivity|]); repeat split; congruence.
Qed.

(** C7, as the code has it: for a successful forecast answer and
    [days >= 0], the [forecast] field is the first [days] entries of the
    provider's list (all of it when it has fewer) and the [city] field is
    the provider's city name, or ["Unknown"] when the name is absent. *)
Theorem forecast_truncates (st : WeatherState) (loc : string) (days : Z)
    (w : world) (d : dict pyval) (l : list pyval) :
  0 <= days ->
  successful_forecast w d l ->
  exists city,
    fst (get_weather_forecast st loc days w) =
      Return [("forecast", PList (firstn (Z.to_nat days) l)); ("city", city)] /\
    named_city d city.
Proof.
  intros Hd H. rewrite <- (slice_to_nonneg _ l Hd).
  now apply forecast_success.
Qed.

Lemma has_key_getitem (k : string) (v : pyval) :
  has_key k v = true -> exists x, getitem_key v k = Return x.
Proof.
  destruct v; try discriminate. cbn. unfold dict_in.
  destruct (dict_get k d); [eexists; reflexivity | discriminate].
Qed.

Lemma answers_cases (shape : pyval -> bool) (r : response) :
  answers shape r = true ->
  status_code r <> 200 \/
  (status_code r = 200 /\ exists j, body r = Some j /\ shape j = true).
Proof.
  unfold answers. destruct (Z.eqb_spec (status_code r) 200) as [E|Hne]; cbn.
  - destruct (body r) as [j|]; [|discriminate]. right. eauto.
  - now left.
Qed.

Ltac key_facts :=
  repeat match goal with
         | H : _ && _ = true |- _ => apply andb_prop in H as [? ?]
         | H : has_key _ _ = true |- _ =>
             apply has_key_getitem in H as [? ?]
         end.

Lemma current_weather_success (st : WeatherState) (loc : string) (w : world)
    (j : pyval) :
  status_code (next_response w) = 200 ->
  body (next_response w) = Some j ->
  current_shape j = true ->
  exists d, fst (get_current_weather st loc w) = Return d /\
    dict_keys d =
      ["temperature"; "feels_like"; "humidity"; "description"; "wind_speed"].
Proof.
  intros Hs Hb Hj. unfold next_response in *.
  destruct (parse_location_total loc) as [p E].
  unfold get_current_weather. rewrite (bind_lift_return _ _ _ _ E).
  unfold bind at 1. unfold requests_get. rewrite Hs.
  unfold response_json. rewrite Hb.
  destruct j as [| | | | |?|d]; try discriminate. cbn in Hj.
  destruct (dict_get "main" d) as [m|] eqn:Em; [|discriminate].
  destruct (dict_get "weather" d) as [[| | | | |[|w0 ws]|]|] eqn:Ew; try discriminate.
  destruct (dict_get "wind" d) as [wi|] eqn:Ewi; [|discriminate].
  key_facts.
  unfold getitem2. cbn. rewrite Em, Ew, Ewi. cbn.
  repeat match goal with H : getitem_key _ _ = Return _ |- _ => rewrite H; clear H end.
  cbn. eexists. split; reflexivity.
Qed.



Lemma air_quality_geocoded (loc : string) (w : world) (c : pyval)
    (cs : list pyval) (lat lon : pyval) :
  (~ exists x y, two_floats loc x y) ->
  status_code (next_response w) = 200 ->
  body (next_response w) = Some (PList (c :: cs)) ->
  getitem_key c "lat" = Return lat ->
  getitem_key c "lon" = Return lon ->
  get_air_quality loc w =
    air_pollution lat lon
      (mkWorld (script w)
         (calls w ++ [mkRequest geo_url
                        [("q", PStr loc); ("limit", PInt 1);
                         ("appid", PStr OPENWEATHER_API_KEY)]])).
Proof.
  intros H Hs Hb Hlat Hlon. apply parse_location_query in H.
  unfold get_air_quality. rewrite (bind_lift_return _ _ _ _ H).
  unfold next_response in *.
  cbn -[Z.eqb air_pollution getitem_key]. rewrite Hs.
  unfold response_json. rewrite Hb.
  cbn -[air_pollution getitem_key]. rewrite Hlat, Hlon. reflexivity.
Qed.

(** The pollution call failing after a successful geocoding. *)
Lemma air_quality_geocoded_failure (loc : string) (w : world) (c : dict pyval)
    (cs : list pyval) (lat lon : pyval) :
  (~ exists x y, two_floats loc x y) ->
  status_code (next_response w) = 200 ->
  body (next_response w) = Some (PList (PDict c :: cs)) ->
  dict_get "lat" c = Some lat ->
  dict_get "lon" c = Some lon ->
  status_code (script w (S (List.length (calls w)))) <> 200 ->
  fst (get_air_quality loc w) =
    Return [("error", PStr "Failed to get air quality data")].
Proof.
  intros Hq Hs Hb Hlat Hlon Hne.
  rewrite (air_quality_geocoded loc w (PDict c) cs lat lon Hq Hs Hb).
  - apply air_pollution_failure. unfold next_response. cbn [calls script].
    rewrite length_app, Nat.add_comm. exact Hne.
  - cbn. now rewrite Hlat.
  - cbn. now rewrite Hlon.
Qed.

(** C4, as the code has it: a call answered with 404 makes
    [get_current_weather] and [get_weather_forecast] return a result whose
    only field is [error], with a message that contains 404;
    [get_air_quality] returns a result whose only field is [error] too, but
    with a fixed message that names the failed step and not the status:
    the resolution message when it is the geocoding call that is answered
    with 404, the pollution message when it is the pollution call, be that
    the first call (a coordinate location) or the call that follows a
    successful geocoding (a place name). *)
Theorem not_found_results (st : WeatherState) (loc : string) (days : Z)
    (w : world) :
  (status_code (next_response w) = 404 ->
     is_error_mentioning "404" (fst (get_current_weather st loc w)) /\
     is_error_mentioning "404" (fst (get_weather_forecast st loc days w)) /\
     ((exists x y, two_floats loc x y) ->
        fst (get_air_quality loc w) =
          Return [("error", PStr "Failed to get air quality data")]) /\
     ((~ exists x y, two_floats loc x y) ->
        fst (get_air_quality loc w) =
          Return [("error", PStr "Unable to resolve location to coordinates")])) /\
  (forall c cs lat lon,
     (~ exists x y, two_floats loc x y) ->
     status_code (next_response w) = 200 ->
     body (next_response w) = Some (PList (PDict c :: cs)) ->
     dict_get "lat" c = Some lat ->
     dict_get "lon" c = Some lon ->
     status_code (script w (S (List.length (calls w)))) = 404 ->
     fst (get_air_quality loc w) =
       Return [("error", PStr "Failed to get air quality data")]) /\
  str_in "404" "Failed to get air quality data" = false /\
  str_in "404" "Unable to resolve location to coordinates" = false.
Proof.
  split; [|split; [|split; reflexivity]].
  - intros E.
    assert (Hn : status_code (next_response w) <> 200) by (rewrite E; discriminate).
    repeat split.
    + eexists. split; [now apply current_weather_failure|].
      rewrite E. reflexivity.
    + eexists. split; [now apply forecast_failure|].
      rewrite E. reflexivity.
    + intros (x & y & Hxy). rewrite (air_quality_coords _ _ _ _ Hxy).
      now apply air_pollution_failure.
    + intros Hq.
      now rewrite (air_quality_unresolved loc w Hq (or_introl Hn)).
  - intros c cs lat lon Hq Hs Hb Hlat Hlon E.
    apply (air_quality_geocoded_failure loc w c cs lat lon Hq Hs Hb Hlat Hlon).
    rewrite E. discriminate.
Qed.



(* ------------------------------------------------------------------ *)
(** ** Further properties of the state *)

Lemma dict_set_twice {V} (k : string) (v1 v2 : V) (d : dict V) :
  dict_set k v2 (dict_set k v1 d) = dict_set k v2 d.
Proof.
  induction d as [|[k' v'] r IH]; cbn.
  - now rewrite String.eqb_refl.
  - destruct (String.eqb k k') eqn:E; cbn; rewrite ?String.eqb_refl, ?E; trivial.
    now rewrite IH.
Qed.

Lemma dict_keys_set_cases {V} (k : string) (v : V) (d : dict V) :
  (dict_in k d = true /\ dict_keys (dict_set k v d) = dict_keys d) \/
  (dict_in k d = false /\ dict_keys (dict_set k v d) = (dict_keys d ++ [k])%list).
Proof.
  unfold dict_in, dict_keys. induction d as [|[k' v'] r IH]; cbn.
  - now right.
  - destruct (String.eqb_spec k k') as [->|Hne]; cbn.
    + now left.
    + destruct IH as [[H E]|[H E]]; [left | right]; now rewrite E.
Qed.

Lemma dict_in_keys {V} (k : string) (d : dict V) :
  dict_in k d = true <-> In k (dict_keys d).
Proof using.
  unfold dict_in, dict_keys. induction d as [|[k' v'] r IH]; cbn.
  - split; [discriminate | intros []].
  - destruct (String.eqb_spec k k') as [->|Hne].
    + split; [intros _; left; reflexivity | intros _; reflexivity].
    + split.
      * intros H. right. apply IH, H.
      * intros [E|H]; [elim Hne; symmetry; exact E | apply IH, H].
Qed.

Lemma dict_set_keys_nodup {V} (k : string) (v : V) (d : dict V) :
  NoDup (dict_keys d) -> NoDup (dict_keys (dict_set k v d)).
Proof using.
  intros H. destruct (dict_keys_set_cases k v d) as [[_ E]|[Hk E]]; rewrite E.
  - exact H.
  - apply NoDup_app; [exact H | repeat constructor; intros [] |].
    intros x Hx [<-|[]]. apply dict_in_keys in Hx. congruence.
Qed.

Lemma dict_get_update_present {V} (k : string) (v : V) (d e : dict V) :
  NoDup (dict_keys e) -> dict_get k e = Some v ->
  dict_get k (dict_update d e) = Some v.
Proof.
  unfold dict_update. revert d.
  induction e as [|[k' v'] r IH]; cbn; intros d Hnd; [discriminate|].
  apply NoDup_cons_iff in Hnd as [Hk Hnd].
  destruct (String.eqb_spec k k') as [->|Hne].
  - intros [= ->].
    assert (Hr : dict_in k' r = false).
    { destruct (dict_in k' r) eqn:E; trivial.
      apply dict_in_keys in E. now elim Hk. }
    fold (dict_update (dict_set k' v d) r).
    rewrite (dict_get_update_absent _ _ _ Hr). apply dict_get_set_same.
  - intros H. now apply IH.
Qed.

(** X1: a saved payload is found again under its label, and a save leaves
    every other label, compared character by character, as it was. *)
Theorem save_then_lookup (st : WeatherState) (label : string) (data : dict pyval) :
  dict_get label (saved_locations (save_location st label data)) = Some data /\
  (forall other, other <> label ->
     dict_get other (saved_locations (save_location st label data)) =
       dict_get other (saved_locations st)).
Proof.
  split.
  - apply dict_get_set_same.
  - intros other Hne. now apply dict_get_set_other.
Qed.

(** X2: the last write under a label wins: saving twice under one label
    leaves the state a single save of the second payload would leave. *)
Theorem save_last_write_wins (st : WeatherState) (label : string)
    (d1 d2 : dict pyval) :
  save_location (save_location st label d1) label d2 = save_location st label d2.
Proof.
  unfold save_location. cbn. now rewrite dict_set_twice.
Qed.

Lemma step_labels_nodup (c : WeatherState * world) (o : op) :
  NoDup (dict_keys (saved_locations (fst c))) ->
  NoDup (dict_keys (saved_locations (fst (step c o)))).
Proof.
  destruct c as [st w]. destruct o; cbn [step fst]; trivial.
  cbn [save_location saved_locations]. apply dict_set_keys_nodup.
Qed.

(** X3: in every state reached from a fresh one, the labels the summary
    lists are pairwise distinct. *)
Theorem saved_labels_distinct (ops : list op) (w : world) :
  NoDup (summary_saved_locations
           (get_state_summary (fst (run ops (fresh_state, w))))).
Proof.
  cbn [get_state_summary summary_saved_locations].
  assert (G : forall c, NoDup (dict_keys (saved_locations (fst c))) ->
                        NoDup (dict_keys (saved_locations (fst (run ops c))))).
  { unfold run. induction ops as [|o ops IH]; cbn; intros c H; [exact H|].
    apply IH. now apply step_labels_nodup. }
  apply G. constructor.
Qed.

(** X4: [update_preferences] is a shallow merge: a key the update does not
    mention keeps its value, and a key it mentions takes the value of the
    update (the update being a dictionary, its keys are distinct). *)
Theorem preferences_shallow_merge (st : WeatherState) (p : dict pyval) (k : string) :
  (dict_in k p = false ->
     dict_get k (user_preferences (update_preferences st p)) =
       dict_get k (user_preferences st)) /\
  (NoDup (dict_keys p) -> forall v, dict_get k p = Some v ->
     dict_get k (user_preferences (update_preferences st p)) = Some v).
Proof.
  split.
  - apply dict_get_update_absent.
  - intros Hnd v Hv. now apply dict_get_update_present.
Qed.

(** X5: the value stored under ["units"] goes into the request as it is,
    whatever it is: nothing checks that it is [metric] or [imperial]. *)
Theorem units_sent_unvalidated (st : WeatherState) (p : dict pyval) (v : pyval)
    (loc : string) (days : Z) (w : world) :
  NoDup (dict_keys p) -> dict_get "units" p = Some v ->
  exists q,
    calls (snd (get_current_weather (update_preferences st p) loc w)) =
      (calls w ++ [mkRequest weather_url q])%list /\
    calls (snd (get_weather_forecast (update_preferences st p) loc days w)) =
      (calls w ++ [mkRequest forecast_url q])%list /\
    dict_get "units" q = Some v.
Proof.
  intros Hnd Hv.
  destruct (current_weather_request (update_preferences st p) loc w) as (q & E & Ec).
  destruct (forecast_request (update_preferences st p) loc days w) as (q' & E' & Ef).
  assert (q' = q) by congruence. subst q'.
  eexists. rewrite Ec, Ef. repeat split.
  rewrite units_sent. unfold dict_get_default.
  cbn [update_preferences user_preferences].
  now rewrite (dict_get_update_present _ _ _ _ Hnd Hv).
Qed.

Lemma step_count (c : WeatherState * world) (o : op) :
  List.length (conversation_history (fst (step c o))) =
    (List.length (conversation_history (fst c)) + count_adds [o])%nat.
Proof.
  destruct c as [st w].
  destruct o; cbn; rewrite ?length_app; cbn; lia.
Qed.

Lemma run_count (ops : list op) (c : WeatherState * world) :
  List.length (conversation_history (fst (run ops c))) =
    (List.length (conversation_history (fst c)) + count_adds ops)%nat.
Proof.
  unfold run. revert c.
  induction ops as [|o ops IH]; cbn [fold_left]; intros c.
  - cbn. lia.
  - rewrite IH, step_count. unfold count_adds. cbn [filter].
    destruct o; cbn [List.length]; lia.
Qed.

(** X6: the [conversation_count] of the summary is the number of
    [add_to_history] calls made since the agent was created; no other
    operation adds or removes an entry. *)
Theorem conversation_count_counts_adds (ops : list op) (w : world) :
  conversation_count (get_state_summary (fst (run ops (fresh_state, w)))) =
    count_adds ops.
Proof.
  cbn [get_state_summary conversation_count]. now rewrite run_count.
Qed.

Lemma step_entries (c : WeatherState * world) (o : op) :
  Forall (fun e => dict_keys e = ["role"; "content"; "timestamp"])
         (conversation_history (fst c)) ->
  Forall (fun e => dict_keys e = ["role"; "content"; "timestamp"])
         (conversation_history (fst (step c o))).
Proof.
  destruct c as [st w]. destruct o; cbn [step fst]; trivial.
  cbn [add_to_history conversation_history]. intros H.
  apply Forall_app. split; [exact H | repeat constructor].
Qed.

(** X7: in every state reached from a fresh one, each entry of the
    history has exactly the fields [role], [content] and [timestamp]. *)
Theorem history_entries_shape (ops : list op) (w : world) (e : dict pyval) :
  In e (conversation_history (fst (run ops (fresh_state, w)))) ->
  dict_keys e = ["role"; "content"; "timestamp"].
Proof.
  assert (G : forall c,
             Forall (fun e => dict_keys e = ["role"; "content"; "timestamp"])
                    (conversation_history (fst c)) ->
             Forall (fun e => dict_keys e = ["role"; "content"; "timestamp"])
                    (conversation_history (fst (run ops c)))).
  { unfold run. induction ops as [|o ops IH]; cbn; intros c H; [exact H|].
    apply IH. now apply step_entries. }
  intros Hin. specialize (G (fresh_state, w) (Forall_nil _)).
  rewrite Forall_forall in G. now apply G.
Qed.

(** X8: in every state reached from a fresh one, the summary's
    [last_interaction] is [None] exactly when its [conversation_count]
    is 0. *)
Theorem summary_last_interaction_iff_count (ops : list op) (w : world) :
  let s := get_state_summary (fst (run ops (fresh_state, w))) in
  summary_last_interaction s = None <-> conversation_count s = 0%nat.
Proof.
  cbn zeta. cbn [get_state_summary summary_last_interaction conversation_count].
  assert (I : history_invariant (fst (run ops (fresh_state, w)))).
  { apply run_history_invariant. cbn. split; intros H; now elim H. }
  unfold history_invariant in I.
  destruct (last_interaction (fst (run ops (fresh_state, w)))) as [t|];
    destruct (conversation_history (fst (run ops (fresh_state, w)))) as [|e h];
    cbn; split; intros H; try reflexivity; try discriminate.
  - exfalso. apply (proj1 I); [discriminate | reflexivity].
  - exfalso. apply (proj2 I); [discriminate | reflexivity].
Qed.

Lemma skipn_min_length {A} (n : nat) (l : list A) :
  skipn (Nat.min n (List.length l)) l = skipn n l.
Proof.
  destruct (Nat.le_ge_cases n (List.length l)) as [H|H].
  - now rewrite Nat.min_l.
  - rewrite Nat.min_r by exact H. now rewrite skipn_all, skipn_all2.
Qed.

(** X9: whatever the limit, [get_recent_history] returns an end piece of
    the history; for a negative limit it is the history without its first
    [-limit] entries (nothing when there are no more than that). *)
Theorem recent_history_is_suffix (st : WeatherState) (limit : Z) :
  (exists older,
     conversation_history st = (older ++ get_recent_history st limit)%list) /\
  (limit < 0 ->
     get_recent_history st limit =
       skipn (Z.to_nat (- limit)) (conversation_history st)).
Proof.
  unfold get_recent_history, slice_from. split.
  - eexists. symmetry. apply firstn_skipn.
  - intros Hl. unfold clamp_bound.
    destruct (Z.ltb_spec (- limit) 0); [lia|]. apply skipn_min_length.
Qed.

(** X10: right after [add_to_history] the new entry, with the role and the
    content as given, is the last one [get_recent_history] returns, for
    every limit of at least 1. *)
Theorem recent_history_ends_with_newest (st : WeatherState) (role content : string)
    (t_stamp t_last : datetime) (n : Z) :
  1 <= n ->
  exists before,
    get_recent_history (add_to_history st role content t_stamp t_last) n =
      (before ++ [[("role", PStr role); ("content", PStr content);
                   ("timestamp", PStr (isoformat t_stamp))]])%list.
Proof.
  intros Hn. unfold get_recent_history, slice_from.
  rewrite (clamp_bound_neg _ _ Hn).
  cbn [add_to_history conversation_history].
  rewrite length_app. cbn [List.length].
  exists (skipn (List.length (conversation_history st) + 1
                 - Nat.min (Z.to_nat n) (List.length (conversation_history st) + 1))
                (conversation_history st)).
  rewrite skipn_app.
  replace (List.length (conversation_history st) + 1
           - Nat.min (Z.to_nat n) (List.length (conversation_history st) + 1)
           - List.length (conversation_history st))%nat with 0%nat by lia.
  reflexivity.
Qed.

(* ------------------------------------------------------------------ *)
(** ** Further properties of the requests *)

Lemma carries_key_with_units (st : WeatherState) (u : string) (p : dict pyval) :
  carries_key (mkRequest u (with_key_and_units st p)).
Proof.
  unfold carries_key, with_key_and_units. cbn [params].
  rewrite dict_get_set_other by discriminate. apply dict_get_set_same.
Qed.

(** X11: [get_weather_forecast] sends one request whatever [days] is, and
    [days] is no part of it: the parameters are the location ([lat] and
    [lon], or [q]), then [appid], then [units], the same
    [get_current_weather] sends. *)
Theorem forecast_request_ignores_days (st : WeatherState) (loc : string)
    (w : world) :
  exists p,
    (forall days,
       calls (snd (get_weather_forecast st loc days w)) =
         (calls w ++ [mkRequest forecast_url p])%list) /\
    calls (snd (get_current_weather st loc w)) =
      (calls w ++ [mkRequest weather_url p])%list /\
    (dict_keys p = ["lat"; "lon"; "appid"; "units"] \/
     dict_keys p = ["q"; "appid"; "units"]).
Proof.
  destruct (current_weather_request st loc w) as (q & E & Ec).
  exists (with_key_and_units st q). split; [|split].
  - intros days.
    destruct (forecast_request st loc days w) as (q' & E' & Ef).
    assert (q' = q) by congruence. subst q'. now rewrite Ef.
  - now rewrite Ec.
  - destruct (parse_location_cases loc) as [(x & y & _ & P)|(_ & P)];
      rewrite P in E; injection E as <-; [left | right]; reflexivity.
Qed.

(** What [get_air_quality] adds to the record of calls. *)
Lemma air_quality_requests (loc : string) (w : world) :
  exists new,
    calls (snd (get_air_quality loc w)) = (calls w ++ new)%list /\
    Forall carries_key new /\
    (map url new = [aq_url] \/ map url new = [geo_url] \/
     map url new = [geo_url; aq_url]).
Proof.
  destruct (parse_location_cases loc) as [(x & y & T & _)|(T & _)].
  - rewrite (air_quality_coords _ _ _ _ T), air_pollution_request.
    eexists. split; [reflexivity|]. split; [|now left].
    repeat constructor.
  - apply parse_location_query in T.
    unfold get_air_quality. rewrite (bind_lift_return _ _ _ _ T).
    cbn -[Z.eqb air_pollution getitem_index getitem_key truthy].
    set (geo := mkRequest geo_url _).
    assert (Hgeo : Forall carries_key [geo]) by (repeat constructor).
    assert (Hstop : exists new,
               (calls w ++ [geo])%list = (calls w ++ new)%list /\
               Forall carries_key new /\
               (map url new = [aq_url] \/ map url new = [geo_url] \/
                map url new = [geo_url; aq_url])).
    { exists [geo]. split; [reflexivity|]. split; [exact Hgeo | right; now left]. }
    destruct (status_code (script w (List.length (calls w))) =? 200);
      [|exact Hstop].
    unfold response_json.
    destruct (body (script w (List.length (calls w)))) as [j|]; [|exact Hstop].
    cbn -[air_pollution getitem_index getitem_key truthy].
    destruct (truthy j); [|exact Hstop].
    cbn -[air_pollution getitem_index getitem_key].
    destruct (obind (getitem_index j 0) (fun c => getitem_key c "lat"));
      [|exact Hstop].
    cbn -[air_pollution getitem_index getitem_key].
    destruct (obind (getitem_index j 0) (fun c => getitem_key c "lon"));
      [|exact Hstop].
    cbn -[air_pollution]. rewrite air_pollution_request. cbn [calls].
    eexists [geo; _]. rewrite <- app_assoc. split; [reflexivity|].
    split; [repeat constructor | right; now right].
Qed.

(** X12: [get_air_quality] sends one or two requests and no more, also
    when it raises: the pollution call alone, the geocoding call alone, or
    the geocoding call followed by the pollution call. *)
Theorem air_quality_request_sequence (loc : string) (w : world) :
  exists new,
    calls (snd (get_air_quality loc w)) = (calls w ++ new)%list /\
    (map url new = [aq_url] \/ map url new = [geo_url] \/
     map url new = [geo_url; aq_url]).
Proof.
  destruct (air_quality_requests loc w) as (new & E & _ & U).
  now exists new.
Qed.

(** X13: for a place name whose geocoding answer is a 200 with a list of
    candidates, the pollution request carries the [lat] and [lon] of the
    first candidate and the others are not looked at. *)
Theorem air_quality_uses_first_candidate (loc : string) (w : world)
    (c : dict pyval) (cs : list pyval) (lat lon : pyval) :
  (~ exists x y, two_floats loc x y) ->
  status_code (next_response w) = 200 ->
  body (next_response w) = Some (PList (PDict c :: cs)) ->
  dict_get "lat" c = Some lat ->
  dict_get "lon" c = Some lon ->
  calls (snd (get_air_quality loc w)) =
    (calls w ++
     [mkRequest geo_url [("q", PStr loc); ("limit", PInt 1);
                         ("appid", PStr OPENWEATHER_API_KEY)];
      mkRequest aq_url [("lat", lat); ("lon", lon);
                        ("appid", PStr OPENWEATHER_API_KEY)]])%list.
Proof.
  intros Hq Hs Hb Hlat Hlon.
  rewrite (air_quality_geocoded loc w (PDict c) cs lat lon Hq Hs Hb).
  - rewrite air_pollution_request. cbn [calls]. now rewrite <- app_assoc.
  - cbn. now rewrite Hlat.
  - cbn. now rewrite Hlon.
Qed.

Lemma step_carries_key (c : WeatherState * world) (o : op) :
  Forall carries_key (calls (snd c)) ->
  Forall carries_key (calls (snd (step c o))).
Proof.
  destruct c as [st w]. intros H.
  destruct o; cbn [step snd]; trivial.
  - destruct (current_weather_request st location w) as (q & _ & E).
    rewrite E. cbn [calls]. apply Forall_app. split; [exact H|].
    repeat constructor. apply carries_key_with_units.
  - destruct (forecast_request st location days w) as (q & _ & E).
    rewrite E. cbn [calls]. apply Forall_app. split; [exact H|].
    repeat constructor. apply carries_key_with_units.
  - destruct (air_quality_requests location w) as (new & E & K & _).
    rewrite E. apply Forall_app. now split.
Qed.

(** X14: every request a session sends carries the configured key as
    [appid]: if the calls recorded so far do, so do those recorded after
    any sequence of operations. *)
Theorem requests_carry_api_key (ops : list op) (st : WeatherState) (w : world) :
  Forall carries_key (calls w) ->
  Forall carries_key (calls (snd (run ops (st, w)))).
Proof.
  assert (G : forall c, Forall carries_key (calls (snd c)) ->
                        Forall carries_key (calls (snd (run ops c)))).
  { unfold run. induction ops as [|o ops IH]; cbn [fold_left]; intros c H;
      [exact H|]. apply IH. now apply step_carries_key. }
  apply (G (st, w)).
Qed.

(* ------------------------------------------------------------------ *)
(** ** Further properties of the results *)

(** X15: on a 200 answer [get_current_weather] copies five values of the
    body, unchanged, under its own field names; of the [weather] list only
    the first entry is read. *)
Theorem current_weather_fields (st : WeatherState) (loc : string) (w : world)
    (d m w0 wi : dict pyval) (ws : list pyval)
    (temp feels humidity description speed : pyval) :
  status_code (next_response w) = 200 ->
  body (next_response w) = Some (PDict d) ->
  dict_get "main" d = Some (PDict m) ->
  dict_get "temp" m = Some temp ->
  dict_get "feels_like" m = Some feels ->
  dict_get "humidity" m = Some humidity ->
  dict_get "weather" d = Some (PList (PDict w0 :: ws)) ->
  dict_get "description" w0 = Some description ->
  dict_get "wind" d = Some (PDict wi) ->
  dict_get "speed" wi = Some speed ->
  fst (get_current_weather st loc w) =
    Return [("temperature", temp); ("feels_like", feels);
            ("humidity", humidity); ("description", description);
            ("wind_speed", speed)].
Proof.
  intros Hs Hb Hm Ht Hf Hh Hw Hd Hwi Hsp. unfold next_response in *.
  destruct (parse_location_total loc) as [p E].
  unfold get_current_weather. rewrite (bind_lift_return _ _ _ _ E).
  unfold bind at 1. unfold requests_get. rewrite Hs.
  unfold response_json. rewrite Hb.
  unfold getitem2. cbn. rewrite Hm, Hw, Hwi. cbn.
  rewrite Ht, Hf, Hh, Hd, Hsp. reflexivity.
Qed.

Ltac split_matches :=
  repeat match goal with
         | |- context [match ?x with _ => _ end] => destruct x eqn:?; cbn
         end.

Lemma current_weather_unreadable (st : WeatherState) (loc : string) (w : world) :
  answers current_shape (next_response w) = false ->
  exists e, fst (get_current_weather st loc w) = Raise e.
Proof.
  unfold answers, next_response.
  destruct (parse_location_total loc) as [p E].
  unfold get_current_weather. rewrite (bind_lift_return _ _ _ _ E).
  unfold bind at 1. unfold requests_get.
  destruct (status_code (script w (List.length (calls w))) =? 200);
    [|discriminate].
  unfold response_json.
  destruct (body (script w (List.length (calls w)))) as [j|];
    [|intros _; eexists; reflexivity].
  cbn [negb orb]. unfold current_shape, getitem2, has_key, dict_in.
  destruct j as [| | | | | |d]; try (intros _; eexists; reflexivity).
  cbn.
  destruct (dict_get "main" d) as [m|]; [|intros _; eexists; reflexivity].
  destruct (dict_get "weather" d) as [ws|];
    [|intros _; destruct m; cbn; split_matches; eexists; reflexivity].
  destruct (dict_get "wind" d) as [wi|];
    [|intros _; destruct m, ws; cbn; split_matches; eexists; reflexivity].
  destruct m as [| | | | | |dm]; cbn;
    try (intros _; eexists; reflexivity).
  destruct (dict_get "temp" dm); cbn;
    [|intros _; eexists; reflexivity].
  destruct (dict_get "feels_like" dm); cbn;
    [|intros _; eexists; reflexivity].
  destruct (dict_get "humidity" dm); cbn;
    [|intros _; eexists; reflexivity].
  destruct ws as [| | | |s|[|w0 ws]|]; cbn;
    try (intros _; eexists; reflexivity);
    try (intros _; destruct s; cbn; eexists; reflexivity).
  destruct w0 as [| | | | | |d0]; cbn;
    try (intros _; eexists; reflexivity).
  destruct (dict_get "description" d0); cbn;
    [|intros _; eexists; reflexivity].
  destruct wi as [| | | | | |dw]; cbn;
    try (intros _; eexists; reflexivity).
  destruct (dict_get "speed" dw); cbn;
    [discriminate | intros _; eexists; reflexivity].
Qed.

(** X16: [get_current_weather] returns a result, rather than raising,
    exactly when the answer is a status other than 200 or a 200 whose body
    has every field the operation reads. *)
Theorem current_weather_returns_iff (st : WeatherState) (loc : string) (w : world) :
  returns (fst (get_current_weather st loc w)) <->
  answers current_shape (next_response w) = true.
Proof.
  split.
  - intros [d E].
    destruct (answers current_shape (next_response w)) eqn:A; [reflexivity|].
    destruct (current_weather_unreadable st loc w A) as [e E']. congruence.
  - intros A. apply answers_cases in A as [Hne|(Hs & j & Hb & Hj)].
    + rewrite (current_weather_failure _ _ _ Hne). eexists. reflexivity.
    + destruct (current_weather_success st loc w j Hs Hb Hj) as (d & E & _).
      now exists d.
Qed.

(** X17: on a 200 answer of the pollution endpoint the result is the
    [aqi] of the [main] object and the [components] of the first entry of
    the body's list, unchanged. *)
Theorem air_quality_fields (loc : string) (x y : F) (w : world)
    (d e m : dict pyval) (es : list pyval) (aqi components : pyval) :
  two_floats loc x y ->
  status_code (next_response w) = 200 ->
  body (next_response w) = Some (PDict d) ->
  dict_get "list" d = Some (PList (PDict e :: es)) ->
  dict_get "main" e = Some (PDict m) ->
  dict_get "aqi" m = Some aqi ->
  dict_get "components" e = Some components ->
  fst (get_air_quality loc w) =
    Return [("aqi", aqi); ("components", components)].
Proof.
  intros T Hs Hb Hl Hm Ha Hc. unfold next_response in *.
  rewrite (air_quality_coords _ _ _ _ T).
  unfold air_pollution. unfold bind at 1. unfold requests_get. rewrite Hs.
  unfold response_json. rewrite Hb.
  unfold getitem2. cbn. rewrite Hl. cbn. rewrite Hm, Hc. cbn. rewrite Ha.
  reflexivity.
Qed.

(** X18: only the status 200 counts as success: on any other status,
    another 2xx included, [get_current_weather] and [get_weather_forecast]
    return an error whose message ends with the status in decimal, and
    [get_air_quality] returns one of its two fixed errors, whichever of its
    calls is answered so: the first one, or the pollution call that follows
    a successful geocoding. *)
Theorem failure_status_reported (st : WeatherState) (loc : string) (days : Z)
    (w : world) :
  (status_code (next_response w) <> 200 ->
     fst (get_current_weather st loc w) =
       Return [("error", PStr ("Failed to get weather data: "
                               ++ str_of_int (status_code (next_response w))))] /\
     fst (get_weather_forecast st loc days w) =
       Return [("error", PStr ("Failed to get forecast data: "
                               ++ str_of_int (status_code (next_response w))))] /\
     (fst (get_air_quality loc w) =
        Return [("error", PStr "Failed to get air quality data")] \/
      fst (get_air_quality loc w) = Return resolution_failure)) /\
  (forall c cs lat lon,
     (~ exists x y, two_floats loc x y) ->
     status_code (next_response w) = 200 ->
     body (next_response w) = Some (PList (PDict c :: cs)) ->
     dict_get "lat" c = Some lat ->
     dict_get "lon" c = Some lon ->
     status_code (script w (S (List.length (calls w)))) <> 200 ->
     fst (get_air_quality loc w) =
       Return [("error", PStr "Failed to get air quality data")]).
Proof.
  split.
  - intros Hne. split; [|split].
    + now apply current_weather_failure.
    + now apply forecast_failure.
    + destruct (parse_location_cases loc) as [(x & y & T & _)|(T & _)].
      * left. rewrite (air_quality_coords _ _ _ _ T).
        now apply air_pollution_failure.
      * right. now rewrite (air_quality_unresolved loc w T (or_introl Hne)).
  - intros c cs lat lon. apply air_quality_geocoded_failure.
Qed.

Lemma slice_to_negative {A} (n : Z) (l : list A) :
  n < 0 -> slice_to n l = firstn (List.length l - Z.to_nat (- n)) l.
Proof.
  intros Hn. unfold slice_to, clamp_bound.
  destruct (Z.ltb_spec n 0); [|lia]. f_equal. lia.
Qed.

(** X19: for a negative [days] the forecast is the provider's list
    without its last [-days] entries, and empty when the list has no more
    than that. *)
Theorem forecast_negative_days (st : WeatherState) (loc : string) (days : Z)
    (w : world) (d : dict pyval) (l : list pyval) :
  days < 0 ->
  successful_forecast w d l ->
  exists city,
    fst (get_weather_forecast st loc days w) =
      Return [("forecast",
               PList (firstn (List.length l - Z.to_nat (- days)) l));
              ("city", city)].
Proof.
  intros Hd H. rewrite <- (slice_to_negative _ l Hd).
  destruct (forecast_success st loc days w d l H) as (city & E & _).
  now exists city.
Qed.

(** X20: a 200 forecast answer whose [city] is present but is not an
    object makes [get_weather_forecast] raise [AttributeError]: the default
    of [get] only replaces a missing [city]. *)
Theorem forecast_city_not_object_raises (st : WeatherState) (loc : string)
    (days : Z) (w : world) (d : dict pyval) (l : list pyval) (c : pyval) :
  status_code (next_response w) = 200 ->
  body (next_response w) = Some (PDict d) ->
  dict_get "list" d = Some (PList l) ->
  dict_get "city" d = Some c ->
  is_dict c = false ->
  fst (get_weather_forecast st loc days w) = Raise AttributeError.
Proof.
  intros Hs Hb Hl Hc Hn. unfold next_response in *.
  destruct (parse_location_total loc) as [p E].
  unfold get_weather_forecast. rewrite (bind_lift_return _ _ _ _ E).
  unfold bind at 1. unfold requests_get. rewrite Hs.
  unfold response_json. rewrite Hb.
  cbn -[slice_to]. rewrite Hl. cbn -[slice_to].
  unfold dict_get_default. rewrite Hc.
  destruct c; try discriminate; reflexivity.
Qed.


End Agent.

(* ------------------------------------------------------------------ *)
(** ** The properties at concrete inputs *)

Arguments PNone {F}.
Arguments PBool {F} b.
Arguments PInt {F} z.
Arguments PFloat {F} f.
Arguments PStr {F} s.
Arguments PList {F} l.
Arguments PDict {F} d.
Arguments mkResponse {F} status_code body.
Arguments mkRequest {F} url params.
Arguments mkWorld {F} script calls.
Arguments mkState {F datetime}.
Arguments fresh_state {F datetime}.
Arguments always {F} r.
Arguments scripted {F} rs r.
Arguments calls {F} w.
Arguments OpSaveLocation {F datetime}.
Arguments OpUpdatePreferences {F datetime}.
Arguments OpAddToHistory {F datetime}.
Arguments OpGetAirQuality {F datetime}.

Module Sample.

Definition num := Decimal.decimal.

Definition parse_location := _parse_location num sample_float.
Definition current_weather := get_current_weather num sample_float Z sample_key.
Definition weather_forecast := get_weather_forecast num sample_float Z sample_key.
Definition air_quality := get_air_quality num sample_float sample_is_zero sample_key.

(** 40.7 and -74.0 *)
Definition lat_40_7 : num :=
  Decimal.Decimal (Decimal.Pos (Decimal.D4 (Decimal.D0 Decimal.Nil)))
                  (Decimal.D7 Decimal.Nil).
Definition lon_m74_0 : num :=
  Decimal.Decimal (Decimal.Neg (Decimal.D7 (Decimal.D4 Decimal.Nil)))
                  (Decimal.D0 Decimal.Nil).

Definition state0 : WeatherState num Z := fresh_state.

Definition not_found : response num := mkResponse 404 None.


Definition no_candidates : response num := mkResponse 200 (Some (PList [])).

Definition two_entries : response num :=
  mkResponse 200 (Some (PDict [("list", PList [PInt 1; PInt 2])])).

Definition forecast_body : dict (pyval num) :=
  [("list", PList [PInt 1; PInt 2; PInt 3; PInt 4]);
   ("city", PDict [("name", PStr "London")])].

Definition current_body : pyval num :=
  PDict [("main", PDict [("temp", PInt 21); ("feels_like", PInt 20);
                         ("humidity", PInt 40)]);
         ("weather", PList [PDict [("description", PStr "clear sky")]]);
         ("wind", PDict [("speed", PInt 3)])].

Definition candidates : pyval num :=
  PList [PDict [("name", PStr "London"); ("lat", PInt 51); ("lon", PInt 0)]].

Definition pollution_body : pyval num :=
  PDict [("list", PList [PDict [("main", PDict [("aqi", PInt 2)]);
                                ("components", PDict [("co", PInt 201)])]])].

Definition three_messages : WeatherState num Z :=
  add_to_history num Z sample_isoformat
    (add_to_history num Z sample_isoformat
       (add_to_history num Z sample_isoformat state0 "user" "hi" 1 1)
       "assistant" "hello" 2 2)
    "user" "weather?" 3 3.

End Sample.

Example split_on_place : split_on comma "Paris, France" = ["Paris"; " France"].
Proof. reflexivity. Qed.

Example split_on_three : split_on comma "1,2,3" = ["1"; "2"; "3"].
Proof. reflexivity. Qed.

Example parse_three_numbers :
  Sample.parse_location "1,2,3" = Return [("q", PStr "1,2,3")].
Proof. reflexivity. Qed.

Example recent_two_of_three :
  List.length (get_recent_history _ _ Sample.three_messages 2) = 2%nat.
Proof. reflexivity. Qed.

Example negative_days_drop_the_end :
  slice_to (-1) [1; 2; 3] = [1; 2].
Proof. reflexivity. Qed.

Lemma not_two_floats (s : string) :
  (forall a b, split_on comma s = [a; b] ->
               sample_float a = None \/ sample_float b = None) ->
  ~ exists x y, two_floats Sample.num sample_float s x y.
Proof.
  intros H (x & y & T). apply two_floats_split in T as (a & b & E & Ha & Hb).
  destruct (H a b E); congruence.
Qed.

Lemma parse_location_spec_witness :
  Sample.parse_location "40.7,-74.0" =
    Return [("lat", PFloat Sample.lat_40_7); ("lon", PFloat Sample.lon_m74_0)] /\
  Sample.parse_location "Paris, France" = Return [("q", PStr "Paris, France")].
Proof.
  split.
  - apply (proj1 (parse_location_spec _ sample_float "40.7,-74.0")).
    exists "40.7", "-74.0". repeat split; reflexivity.
  - apply (proj1 (proj2 (parse_location_spec _ sample_float "Paris, France"))).
    apply not_two_floats. intros a b E. cbv in E. injection E as <- <-.
    right. reflexivity.
Defined.

Lemma get_recent_history_spec_witness :
  1 <= 2 /\
  get_recent_history _ _ Sample.three_messages 2 =
    last_entries 2 (conversation_history _ _ Sample.three_messages).
Proof.
  split; [lia|].
  apply (proj1 (get_recent_history_spec _ _ Sample.three_messages 2)). lia.
Defined.

Lemma units_preference_witness :
  let ops := [OpSaveLocation "home" [("lat", PInt 1)];
              OpUpdatePreferences [("language", PStr "en")];
              OpGetAirQuality "Oslo"] in
  forallb (fun o => negb (sets_preference Sample.num Z "units" o)) ops = true /\
  let c := run _ sample_float sample_is_zero _ sample_isoformat sample_key ops
             (Sample.state0, always Sample.not_found) in
  exists p,
    calls (snd (Sample.current_weather (fst c) "London" (snd c))) =
      (calls (snd c) ++ [mkRequest weather_url p])%list /\
    dict_get "units" p = Some (PStr "metric").
Proof.
  split; [reflexivity|].
  apply (proj2 (units_preference _ sample_float sample_is_zero _ sample_isoformat
                  sample_key Sample.state0 _ "London" (always Sample.not_found))).
  reflexivity.
Defined.

Lemma air_quality_skips_geocoding_witness :
  two_floats _ sample_float "40.7,-74.0" Sample.lat_40_7 Sample.lon_m74_0 /\
  calls (snd (Sample.air_quality "40.7,-74.0" (always Sample.not_found))) =
    [mkRequest aq_url [("lat", PFloat Sample.lat_40_7);
                       ("lon", PFloat Sample.lon_m74_0);
                       ("appid", PStr sample_key)]].
Proof.
  assert (H : two_floats _ sample_float "40.7,-74.0" Sample.lat_40_7 Sample.lon_m74_0).
  { exists "40.7", "-74.0". repeat split; reflexivity. }
  split; [exact H|].
  exact (air_quality_skips_geocoding _ sample_float sample_is_zero sample_key
           "40.7,-74.0" _ _ (always Sample.not_found) H).
Defined.

Lemma nowhereville_is_a_place_name :
  ~ exists x y, two_floats Sample.num sample_float "Nowhereville" x y.
Proof.
  apply not_two_floats. intros a b E. cbv in E. discriminate E.
Qed.

Lemma air_quality_resolution_failure_witness :
  body _ (next_response _ (always Sample.no_candidates)) = Some (PList []) /\
  Sample.air_quality "Nowhereville" (always Sample.no_candidates) =
    (Return (resolution_failure _),
     mkWorld (fun _ => Sample.no_candidates)
       [mkRequest geo_url [("q", PStr "Nowhereville"); ("limit", PInt 1);
                           ("appid", PStr sample_key)]]).
Proof.
  split; [reflexivity|].
  apply (proj1 (air_quality_resolution_failure _ sample_float sample_is_zero
                  sample_key "Nowhereville" (always Sample.no_candidates)
                  nowhereville_is_a_place_name (or_intror eq_refl))).
Defined.

Lemma not_found_results_witness :
  let w := always Sample.not_found in
  let w' := scripted [mkResponse 200 (Some Sample.candidates)] Sample.not_found in
  (status_code _ (next_response _ w) = 404 /\
   is_error_mentioning _ "404"
     (fst (Sample.current_weather Sample.state0 "London" w)) /\
   fst (Sample.air_quality "Nowhereville" w) =
     Return [("error", PStr "Unable to resolve location to coordinates")]) /\
  (status_code _ (next_response _ w') = 200 /\
   status_code _ (script _ w' 1%nat) = 404 /\
   fst (Sample.air_quality "Nowhereville" w') =
     Return [("error", PStr "Failed to get air quality data")]).
Proof.
  cbn zeta. split.
  - split; [reflexivity|].
    destruct (proj1 (not_found_results _ sample_float sample_is_zero Z sample_key
                       Sample.state0 "Nowhereville" 3 (always Sample.not_found))
                eq_refl) as (_ & _ & _ & Hq).
    split; [|exact (Hq nowhereville_is_a_place_name)].
    exact (proj1 (proj1 (not_found_results _ sample_float sample_is_zero Z sample_key
                           Sample.state0 "London" 3 (always Sample.not_found))
                    eq_refl)).
  - split; [reflexivity|]. split; [reflexivity|].
    exact (proj1 (proj2 (not_found_results _ sample_float sample_is_zero Z sample_key
                           Sample.state0 "Nowhereville" 3
                           (scripted [mkResponse 200 (Some Sample.candidates)]
                                     Sample.not_found)))
             [("name", PStr "London"); ("lat", PInt 51); ("lon", PInt 0)] []
             (PInt 51) (PInt 0)
             nowhereville_is_a_place_name eq_refl eq_refl eq_refl eq_refl eq_refl).
Defined.

Lemma forecast_truncates_witness :
  let w := always (mkResponse 200 (Some (PDict Sample.forecast_body))) in
  0 <= 3 /\
  successful_forecast _ w Sample.forecast_body [PInt 1; PInt 2; PInt 3; PInt 4] /\
  exists city,
    fst (Sample.weather_forecast Sample.state0 "London" 3 w) =
      Return [("forecast", PList [PInt 1; PInt 2; PInt 3]); ("city", city)] /\
    named_city _ Sample.forecast_body city.
Proof.
  cbn zeta.
  assert (H : successful_forecast _
                (always (mkResponse 200 (Some (PDict Sample.forecast_body))))
                Sample.forecast_body [PInt 1; PInt 2; PInt 3; PInt 4]).
  { repeat split. right. eexists. reflexivity. }
  split; [lia|]. split; [exact H|].
  apply (forecast_truncates _ sample_float Z sample_key Sample.state0 "London" 3
           _ _ _ ltac:(lia) H).
Defined.


(** *** Where the code departs from the specification's wording *)


(** A 404 from the pollution endpoint: the message of [get_air_quality]
    does not carry the status. *)
Lemma not_found_counterexample :
  fst (Sample.air_quality "40.7,-74.0" (always Sample.not_found)) =
    Return [("error", PStr "Failed to get air quality data")] /\
  ~ not_found_claim Sample.num sample_float sample_is_zero Z sample_key.
Proof.
  split; [reflexivity|].
  intros H.
  destruct (H Sample.state0 "40.7,-74.0" 3 (always Sample.not_found))
    as (_ & _ & msg & E & Hin).
  - intros n. reflexivity.
  - injection E as <-. discriminate Hin.
Qed.

(** [days = -1] on a list of two entries: the slice [[:-1]] keeps the
    first entry, where "the first [days] entries" is no entry at all. *)
Lemma first_days_counterexample :
  fst (Sample.weather_forecast Sample.state0 "London" (-1) (always Sample.two_entries)) =
    Return [("forecast", PList [PInt 1]); ("city", PStr "Unknown")] /\
  ~ first_days_claim Sample.num sample_float Z sample_key.
Proof.
  split; [reflexivity|].
  intros H.
  destruct (H Sample.state0 "London" (-1) (always Sample.two_entries)
              [("list", PList [PInt 1; PInt 2])] [PInt 1; PInt 2])
    as (city & E & _).
  - repeat split. now left.
  - discriminate E.
Qed.

(* ------------------------------------------------------------------ *)
(** ** The further properties at concrete inputs *)

Arguments OpGetCurrentWeather {F datetime}.
Arguments OpGetWeatherForecast {F datetime}.

Module Cases.

Definition session : list (op Sample.num Z) :=
  [OpAddToHistory "user" "hi" 1 1;
   OpGetCurrentWeather "London";
   OpGetAirQuality "Oslo";
   OpGetWeatherForecast "40.7,-74.0" 2].

Definition run_session (w : world Sample.num) : WeatherState Sample.num Z * world Sample.num :=
  run _ sample_float sample_is_zero _ sample_isoformat sample_key session
    (Sample.state0, w).

Definition geocoded : world Sample.num :=
  scripted [mkResponse 200 (Some Sample.candidates)] Sample.not_found.

Definition no_content : response Sample.num := mkResponse 204 None.

Definition null_city : dict (pyval Sample.num) :=
  [("list", PList [PInt 1]); ("city", PNone)].

Definition merge : dict (pyval Sample.num) :=
  [("units", PStr "standard"); ("language", PStr "en")].

End Cases.

Lemma merge_keys_distinct : NoDup (dict_keys Cases.merge).
Proof.
  repeat constructor; cbn; intuition discriminate.
Qed.

Lemma save_then_lookup_witness :
  "Home" <> "home" /\
  dict_get "Home"
    (saved_locations _ _ (save_location _ _ Sample.state0 "home" [("lat", PInt 1)])) =
    None.
Proof.
  split; [discriminate|].
  apply (proj2 (save_then_lookup _ _ Sample.state0 "home" [("lat", PInt 1)]) "Home").
  discriminate.
Defined.

Lemma preferences_shallow_merge_witness :
  dict_in "theme" Cases.merge = false /\
  NoDup (dict_keys Cases.merge) /\
  dict_get "theme"
    (user_preferences _ _ (update_preferences _ _ Sample.state0 Cases.merge)) = None /\
  dict_get "language"
    (user_preferences _ _ (update_preferences _ _ Sample.state0 Cases.merge)) =
    Some (PStr "en").
Proof.
  split; [reflexivity|]. split; [exact merge_keys_distinct|]. split.
  - apply (proj1 (preferences_shallow_merge _ _ Sample.state0 Cases.merge "theme")).
    reflexivity.
  - apply (proj2 (preferences_shallow_merge _ _ Sample.state0 Cases.merge "language")
             merge_keys_distinct).
    reflexivity.
Defined.

Lemma units_sent_unvalidated_witness :
  dict_get "units" Cases.merge = Some (PStr "standard") /\
  exists q,
    calls (snd (Sample.current_weather
                  (update_preferences _ _ Sample.state0 Cases.merge) "London"
                  (always Sample.not_found))) =
      [mkRequest weather_url q] /\
    calls (snd (Sample.weather_forecast
                  (update_preferences _ _ Sample.state0 Cases.merge) "London" 3
                  (always Sample.not_found))) =
      [mkRequest forecast_url q] /\
    dict_get "units" q = Some (PStr "standard").
Proof.
  split; [reflexivity|].
  exact (units_sent_unvalidated _ sample_float Z sample_key Sample.state0 Cases.merge
           (PStr "standard") "London" 3 (always Sample.not_found)
           merge_keys_distinct eq_refl).
Defined.

Lemma history_entries_shape_witness :
  let e := [("role", PStr "user"); ("content", PStr "hi"); ("timestamp", PStr "1")] in
  In e (conversation_history _ _ (fst (Cases.run_session (always Sample.not_found)))) /\
  dict_keys e = ["role"; "content"; "timestamp"].
Proof.
  cbn zeta.
  assert (H : In [("role", PStr "user"); ("content", PStr "hi"); ("timestamp", PStr "1")]
                (conversation_history _ _
                   (fst (Cases.run_session (always Sample.not_found)))))
    by (left; reflexivity).
  split; [exact H|].
  exact (history_entries_shape _ sample_float sample_is_zero _ sample_isoformat
           sample_key Cases.session (always Sample.not_found) _ H).
Defined.

Lemma recent_history_is_suffix_witness :
  -1 < 0 /\
  get_recent_history _ _ Sample.three_messages (-1) =
    skipn 1 (conversation_history _ _ Sample.three_messages).
Proof.
  split; [lia|].
  apply (proj2 (recent_history_is_suffix _ _ Sample.three_messages (-1))). lia.
Defined.

Lemma recent_history_ends_with_newest_witness :
  1 <= 2 /\
  exists before,
    get_recent_history _ _
      (add_to_history _ _ sample_isoformat Sample.three_messages "assistant" "sunny" 4 4)
      2 =
    (before ++ [[("role", PStr "assistant"); ("content", PStr "sunny");
                 ("timestamp", PStr (sample_isoformat 4))]])%list.
Proof.
  split; [lia|].
  apply (recent_history_ends_with_newest _ _ sample_isoformat Sample.three_messages
           "assistant" "sunny" 4 4 2).
  lia.
Defined.

Lemma air_quality_uses_first_candidate_witness :
  status_code _ (next_response _ Cases.geocoded) = 200 /\
  calls (snd (Sample.air_quality "Nowhereville" Cases.geocoded)) =
    [mkRequest geo_url [("q", PStr "Nowhereville"); ("limit", PInt 1);
                        ("appid", PStr sample_key)];
     mkRequest aq_url [("lat", PInt 51); ("lon", PInt 0);
                       ("appid", PStr sample_key)]].
Proof.
  split; [reflexivity|].
  exact (air_quality_uses_first_candidate _ sample_float sample_is_zero sample_key
           "Nowhereville" Cases.geocoded
           [("name", PStr "London"); ("lat", PInt 51); ("lon", PInt 0)] []
           (PInt 51) (PInt 0)
           nowhereville_is_a_place_name eq_refl eq_refl eq_refl eq_refl).
Defined.

Lemma requests_carry_api_key_witness :
  Forall (carries_key _ sample_key) (calls (always Sample.not_found)) /\
  Forall (carries_key _ sample_key)
         (calls (snd (Cases.run_session (always Sample.not_found)))).
Proof.
  split; [constructor|].
  apply (requests_carry_api_key _ sample_float sample_is_zero _ sample_isoformat
           sample_key Cases.session Sample.state0 (always Sample.not_found)).
  constructor.
Defined.

Lemma current_weather_fields_witness :
  let w := always (mkResponse 200 (Some Sample.current_body)) in
  status_code _ (next_response _ w) = 200 /\
  fst (Sample.current_weather Sample.state0 "London" w) =
    Return [("temperature", PInt 21); ("feels_like", PInt 20);
            ("humidity", PInt 40); ("description", PStr "clear sky");
            ("wind_speed", PInt 3)].
Proof.
  cbn zeta. split; [reflexivity|].
  eapply (current_weather_fields _ sample_float Z sample_key Sample.state0 "London"
            (always (mkResponse 200 (Some Sample.current_body))));
    reflexivity.
Defined.

Lemma air_quality_fields_witness :
  let w := always (mkResponse 200 (Some Sample.pollution_body)) in
  two_floats _ sample_float "40.7,-74.0" Sample.lat_40_7 Sample.lon_m74_0 /\
  fst (Sample.air_quality "40.7,-74.0" w) =
    Return [("aqi", PInt 2); ("components", PDict [("co", PInt 201)])].
Proof.
  cbn zeta.
  assert (T : two_floats _ sample_float "40.7,-74.0" Sample.lat_40_7 Sample.lon_m74_0).
  { exists "40.7", "-74.0". repeat split; reflexivity. }
  split; [exact T|].
  eapply (air_quality_fields _ sample_float sample_is_zero sample_key "40.7,-74.0"
            _ _ (always (mkResponse 200 (Some Sample.pollution_body))));
    [exact T | reflexivity ..].
Defined.

Lemma failure_status_reported_witness :
  let w := always Cases.no_content in
  let w' := scripted [mkResponse 200 (Some Sample.candidates)] Cases.no_content in
  (status_code _ (next_response _ w) <> 200 /\
   fst (Sample.current_weather Sample.state0 "London" w) =
     Return [("error", PStr "Failed to get weather data: 204")]) /\
  (status_code _ (next_response _ w') = 200 /\
   status_code _ (script _ w' 1%nat) <> 200 /\
   fst (Sample.air_quality "Nowhereville" w') =
     Return [("error", PStr "Failed to get air quality data")]).
Proof.
  cbn zeta.
  assert (H : status_code _ (next_response _ (always Cases.no_content)) <> 200)
    by discriminate.
  assert (H' : status_code _
                 (script _ (scripted [mkResponse 200 (Some Sample.candidates)]
                                     Cases.no_content) 1%nat) <> 200)
    by discriminate.
  split.
  - split; [exact H|].
    exact (proj1 (proj1 (failure_status_reported _ sample_float sample_is_zero Z
                           sample_key Sample.state0 "London" 3
                           (always Cases.no_content)) H)).
  - split; [reflexivity|]. split; [exact H'|].
    exact (proj2 (failure_status_reported _ sample_float sample_is_zero Z
                    sample_key Sample.state0 "Nowhereville" 3
                    (scripted [mkResponse 200 (Some Sample.candidates)]
                              Cases.no_content))
             [("name", PStr "London"); ("lat", PInt 51); ("lon", PInt 0)] []
             (PInt 51) (PInt 0)
             nowhereville_is_a_place_name eq_refl eq_refl eq_refl eq_refl H').
Defined.

Lemma forecast_negative_days_witness :
  -1 < 0 /\
  successful_forecast _ (always Sample.two_entries)
    [("list", PList [PInt 1; PInt 2])] [PInt 1; PInt 2] /\
  exists city,
    fst (Sample.weather_forecast Sample.state0 "London" (-1) (always Sample.two_entries)) =
      Return [("forecast", PList [PInt 1]); ("city", city)].
Proof.
  assert (H : successful_forecast _ (always Sample.two_entries)
                [("list", PList [PInt 1; PInt 2])] [PInt 1; PInt 2]).
  { repeat split. now left. }
  split; [lia|]. split; [exact H|].
  exact (forecast_negative_days _ sample_float Z sample_key Sample.state0 "London"
           (-1) _ _ _ ltac:(lia) H).
Defined.

Lemma forecast_city_not_object_raises_witness :
  let w := always (mkResponse 200 (Some (PDict Cases.null_city))) in
  dict_get "city" Cases.null_city = Some PNone /\
  fst (Sample.weather_forecast Sample.state0 "London" 3 w) = Raise AttributeError.
Proof.
  cbn zeta. split; [reflexivity|].
  eapply (forecast_city_not_object_raises _ sample_float Z sample_key Sample.state0
            "London" 3 (always (mkResponse 200 (Some (PDict Cases.null_city)))));
    reflexivity.
Defined.
